(** * Job dispatch for hybrid ephys recordings: a shallow embedding of
      [code/run_capsule.py] and the properties of its specification.

    The script resolves its configuration (command line or a JSON blob),
    walks the data folder for [recording.zarr] directories, optionally
    subsamples them with a freshly seeded generator, and for every folder
    with a [sorting.zarr] sibling writes a job descriptor twice and the
    ground-truth sorting once.

    Modelling choices
    - Python values that flow through the configuration are [pyval].
    - Exceptions are the [Raise] branch of [result]; the body of the script
      is a state-and-error computation [M] over the results folder.
    - Floating point numbers are kept abstract behind [FloatOps]; the
      general statements hold for every implementation of these
      operations.  The instance over exact rationals serves to run the
      model on concrete inputs; binary floating point differs from it in
      rounding, in [inf] and [nan], and in the literals it reads.
    - What the script obtains from outside (the JSON decoder, the data
      tree, the loaders and encoders of the recording library, the random
      generator of numpy and the entropy of the operating system) is
      gathered in [Env].
    - The results folder is a set of directories and a map of regular
      files.  [mkdir] and the writes are modelled where they succeed: no
      regular file sits at the path of an output folder and no directory
      at the path of an output file ([results_folder_usable]). *)

From Stdlib Require Import ZArith QArith Qround Qabs Qminmax Lqa String Ascii List Lia.
From stdpp Require Import gmap strings list fin_maps.

Set Default Proof Using "Type".
Local Open Scope Z_scope.

(** ** Paths, as [pathlib] parts *)

Abbreviation path := (list string).

Definition data_folder : path := [".."; "data"]%string.
Definition results_folder : path := [".."; "results"]%string.

(** [p.parent], [p.parents[1]] and [p.name] for a path of at least two parts. *)
Definition parent (p : path) : path := removelast p.
Definition parents1 (p : path) : path := parent (parent p).
Definition name (p : path) : string := List.last p ""%string.

(** ** Exceptions and results *)

Inductive exn : Type :=
  | ValueError (msg : string)
  | TypeError (msg : string)
  | AttributeError (msg : string)
  | JSONDecodeError
  | OverflowError
  | AssertionError (msg : string)
  | LoadError (p : path)
  | EncodeError (msg : string).

Inductive result (A : Type) : Type :=
  | Ok (a : A)
  | Raise (e : exn).
Arguments Ok {A} a.
Arguments Raise {A} e.

Definition rbind {A B} (r : result A) (k : A -> result B) : result B :=
  match r with
  | Ok a => k a
  | Raise e => Raise e
  end.

(** ** Strings as Python sees them *)

Definition ascii_lower (c : ascii) : ascii :=
  let n := nat_of_ascii c in
  if (Nat.leb 65 n && Nat.leb n 90)%bool then ascii_of_nat (n + 32) else c.

Fixpoint str_lower (s : string) : string :=
  match s with
  | EmptyString => EmptyString
  | String c r => String (ascii_lower c) (str_lower r)
  end.

Definition is_space (c : ascii) : bool :=
  let n := nat_of_ascii c in
  (Nat.eqb n 32 || (Nat.leb 9 n && Nat.leb n 13))%bool.

Definition is_digit (c : ascii) : bool :=
  let n := nat_of_ascii c in (Nat.leb 48 n && Nat.leb n 57)%bool.

Definition digit_value (c : ascii) : Z := Z.of_nat (nat_of_ascii c) - 48.

Fixpoint lstrip (l : list ascii) : list ascii :=
  match l with
  | c :: r => if is_space c then lstrip r else l
  | [] => []
  end.

Definition strip (l : list ascii) : list ascii := rev (lstrip (rev (lstrip l))).

(** Decimal digits with single underscores between them, as [int] accepts. *)
Fixpoint digits_value (acc : Z) (prev_digit : bool) (l : list ascii) : option Z :=
  match l with
  | [] => if prev_digit then Some acc else None
  | c :: r =>
      if is_digit c then digits_value (10 * acc + digit_value c) true r
      else if (Ascii.eqb c "_" && prev_digit)%bool then digits_value acc false r
      else None
  end.

(** [int(s)] for a string: surrounding whitespace, an optional sign, digits. *)
Definition int_of_string (s : string) : result Z :=
  let body := strip (list_ascii_of_string s) in
  let parsed :=
    match body with
    | "-"%char :: r => option_map Z.opp (digits_value 0 false r)
    | "+"%char :: r => digits_value 0 false r
    | _ => digits_value 0 false body
    end in
  match parsed with
  | Some z => Ok z
  | None => Raise (ValueError "invalid literal for int() with base 10")
  end.

(** Truth value of [s] where [s] is [None] or a string. *)
Definition str_truthy (s : option string) : bool :=
  match s with
  | Some (String _ _) => true
  | _ => false
  end.

(** The separator ["__"] occurs in [s]. *)
Fixpoint has_separator (s : string) : bool :=
  match s with
  | EmptyString => false
  | String c r =>
      match r with
      | String c' _ => (Ascii.eqb c "_" && Ascii.eqb c' "_") || has_separator r
      | EmptyString => false
      end
  end.

(** [s] ends with an underscore. *)
Fixpoint ends_with_underscore (s : string) : bool :=
  match s with
  | EmptyString => false
  | String c EmptyString => Ascii.eqb c "_"
  | String _ r => ends_with_underscore r
  end.

(** ** Floating point operations the script relies on *)

Class FloatOps (F : Type) : Type := {
  float_of_Z : Z -> F;                    (* float(n) *)
  float_of_string : string -> option F;   (* float(s); None is ValueError *)
  fmul : F -> F -> F;
  fdiv : F -> F -> F;
  int_of_float : F -> option Z;           (* int(x); None for inf and nan *)
  np_round2 : F -> F;                     (* np.round(x, 2) *)
  float_ltb_Z : F -> Z -> bool;           (* x < n *)
  float_is_zero : F -> bool
}.

Section Model.
Context {F : Type} `{!FloatOps F}.

(** ** Python values decoded from JSON or built by the script *)

#[warnings="-register-all"] Inductive pyval : Type :=
  | PyNone
  | PyBool (b : bool)
  | PyInt (z : Z)
  | PyFloat (x : F)
  | PyStr (s : string)
  | PyList (l : list pyval)
  | PyDict (d : gmap string pyval).

Definition truthy (v : pyval) : bool :=
  match v with
  | PyNone => false
  | PyBool b => b
  | PyInt z => negb (z =? 0)
  | PyFloat x => negb (float_is_zero x)
  | PyStr s => match s with EmptyString => false | _ => true end
  | PyList l => match l with [] => false | _ => true end
  | PyDict d => negb (bool_decide (d = ∅))
  end.

(** [float(v)] *)
Definition py_float (v : pyval) : result F :=
  match v with
  | PyBool b => Ok (float_of_Z (Z.b2z b))
  | PyInt z => Ok (float_of_Z z)
  | PyFloat x => Ok x
  | PyStr s =>
      match float_of_string s with
      | Some x => Ok x
      | None => Raise (ValueError "could not convert string to float")
      end
  | PyNone => Raise (TypeError "float() argument must be a string or a real number, not 'NoneType'")
  | PyList _ => Raise (TypeError "float() argument must be a string or a real number, not 'list'")
  | PyDict _ => Raise (TypeError "float() argument must be a string or a real number, not 'dict'")
  end.

(** [params.get(key, default)]; only a dict has [get]. *)
Definition dict_get (params : pyval) (key : string) (dflt : pyval) : result pyval :=
  match params with
  | PyDict d => Ok (default dflt (d !! key))
  | _ => Raise (AttributeError "object has no attribute 'get'")
  end.

(** ** The recording library, as far as the script uses it *)

Record ZarrInfo : Type := {
  zarr_sampling_frequency : F;
  zarr_num_samples : Z;
  zarr_num_channels : Z
}.

(** A loaded recording, or a frame slice of one; this structure is what
    [to_dict(recursive=True)] describes. *)
Inductive Recording : Type :=
  | ZarrRecording (folder : path) (info : ZarrInfo)
  | FrameSliceRecording (parent_recording : Recording) (start_frame end_frame : Z).

Fixpoint sampling_frequency (r : Recording) : F :=
  match r with
  | ZarrRecording _ i => zarr_sampling_frequency i
  | FrameSliceRecording p _ _ => sampling_frequency p
  end.

Definition get_num_samples (r : Recording) : Z :=
  match r with
  | ZarrRecording _ i => zarr_num_samples i
  | FrameSliceRecording _ s e => e - s
  end.

Fixpoint get_num_channels (r : Recording) : Z :=
  match r with
  | ZarrRecording _ i => zarr_num_channels i
  | FrameSliceRecording p _ _ => get_num_channels p
  end.

Definition get_total_duration (r : Recording) : F :=
  fdiv (float_of_Z (get_num_samples r)) (sampling_frequency r).

(** [recording.frame_slice]: an end frame of 0 stands for the end of the
    recording, as no end frame does; the library then asserts
    [0 <= start_frame < parent samples] and [start_frame < end_frame <= parent samples]. *)
Definition frame_slice (r : Recording) (start_frame end_frame : Z) : result Recording :=
  let n := get_num_samples r in
  let end_frame := if end_frame =? 0 then n else end_frame in
  if ((0 <=? start_frame) && (start_frame <? n) && (0 <? end_frame)
      && (end_frame <=? n) && (start_frame <? end_frame))%bool
  then Ok (FrameSliceRecording r start_frame end_frame)
  else Raise (AssertionError "frame_slice: invalid start_frame or end_frame").

Inductive Sorting : Type :=
  | ZarrSorting (folder : path)
  | FrameSliceSorting (parent_sorting : Sorting) (start_frame end_frame : Z).

(** [sorting.frame_slice]: the library asserts [0 <= start_frame < end_frame]. *)
Definition sorting_frame_slice (s : Sorting) (start_frame end_frame : Z) : result Sorting :=
  if ((0 <=? start_frame) && (start_frame <? end_frame))%bool
  then Ok (FrameSliceSorting s start_frame end_frame)
  else Raise (AssertionError "frame_slice: start_frame must be smaller than end_frame").

(** ** The job descriptor *)

Record JobDict : Type := {
  jd_session_name : string;
  jd_recording_name : string;
  jd_recording_dict : Recording;
  jd_duration : F;
  jd_input_folder : string;
  jd_debug : pyval
}.

(** ** The data tree *)

#[warnings="-register-all"] Inductive node : Type :=
  | File
  | Dir (entries : list (string * node)).

Definition is_dir_node (n : node) : bool :=
  match n with Dir _ => true | File => false end.

Definition dirnames (entries : list (string * node)) : list string :=
  map fst (filter (fun e => is_dir_node (snd e) = true) entries).

Definition filenames (entries : list (string * node)) : list string :=
  map fst (filter (fun e => is_dir_node (snd e) = false) entries).

(** [os.walk(top)], top down, in listing order: one triple per directory. *)
Fixpoint os_walk (root : path) (n : node) : list (path * list string * list string) :=
  match n with
  | File => []
  | Dir entries =>
      (root, dirnames entries, filenames entries) ::
      (fix sub (es : list (string * node)) : list (path * list string * list string) :=
         match es with
         | [] => []
         | (d, child) :: r => os_walk (root ++ [d]) child ++ sub r
         end) entries
  end.

Fixpoint lookup_node (n : node) (rel : path) : option node :=
  match rel with
  | [] => Some n
  | d :: r =>
      match n with
      | File => None
      | Dir entries =>
          match List.find (fun e => String.eqb (fst e) d) entries with
          | Some (_, child) => lookup_node child r
          | None => None
          end
      end
  end.

(** ** What the script obtains from its surroundings *)

Record Env : Type := {
  json_loads : string -> option pyval;        (* None is JSONDecodeError *)
  is_file : string -> bool;                   (* Path(s).is_file() *)
  read_text : string -> string;               (* contents of a file *)
  data_tree : node;                           (* what lies at data_folder *)
  load_recording : path -> option ZarrInfo;   (* si.load; None is a load failure *)
  load_sorting : path -> bool;                (* si.load succeeds on a sorting *)
  json_dump : JobDict -> string * option exn; (* text written, then a possible failure *)
  sorting_dumps : Sorting -> result string;   (* dump_to_json *)
  os_entropy : Z;                             (* what seeds a generator made
                                                 without a seed, in this run *)
  generator_choice : Z -> nat -> nat -> list nat
                                              (* numpy: the positions a fresh generator
                                                 of that seed draws by
                                                 choice(replace=False), for a
                                                 population and a size *)
}.

(** [np.random.default_rng(seed)]: the generator is determined by its seed;
    without a seed it is seeded from the entropy of the operating system. *)
Definition default_rng (env : Env) (seed : option Z) : Z :=
  match seed with
  | Some s => s
  | None => os_entropy env
  end.

(** The positions drawn by [default_rng(seed=0)]. *)
Definition choice_indices (env : Env) (n k : nat) : list nat :=
  generator_choice env (default_rng env (Some 0)) n k.

(** The draw is without replacement: distinct positions of the population. *)
Definition choice_without_replacement (env : Env) : Prop :=
  forall n k : nat, (k <= n)%nat ->
    length (choice_indices env n k) = k /\
    NoDup (choice_indices env n k) /\
    Forall (fun i => (i < n)%nat) (choice_indices env n k).

(** ** Command line *)

Record Args : Type := {
  arg_debug : bool;                         (* --debug *)
  arg_static_debug : option string;
  arg_debug_duration : pyval;               (* --debug-duration, default 30 *)
  arg_static_debug_duration : option string;
  arg_max_recordings : option string;       (* --max-recordings *)
  arg_static_max_recordings : option string;
  arg_params : option string                (* --params *)
}.

Record Config : Type := {
  DEBUG : pyval;
  DEBUG_DURATION : F;
  MAX_RECORDINGS : pyval
}.

Definition load_params (env : Env) (PARAMS : string) : result pyval :=
  match json_loads env PARAMS with
  | Some params => Ok params
  | None =>
      if is_file env PARAMS then
        match json_loads env (read_text env PARAMS) with
        | Some params => Ok params
        | None => Raise JSONDecodeError
        end
      else
        Raise (ValueError ("Invalid parameters: " +:+ PARAMS +:+
                           " is not a valid JSON string or file path"))
  end.

Definition resolve_config (env : Env) (args : Args) : result Config :=
  match arg_params args with
  | Some PARAMS =>
      rbind (load_params env PARAMS) (fun params =>
      rbind (dict_get params "debug" (PyBool false)) (fun debug =>
      rbind (dict_get params "debug_duration" PyNone) (fun dd =>
      rbind (py_float dd) (fun debug_duration =>
      rbind (dict_get params "max_recordings" PyNone) (fun max_recordings =>
      Ok {| DEBUG := debug;
            DEBUG_DURATION := debug_duration;
            MAX_RECORDINGS := max_recordings |})))))
  | None =>
      let debug :=
        match arg_static_debug args with
        | Some s => if str_truthy (Some s)
                    then String.eqb (str_lower s) "true"
                    else arg_debug args
        | None => arg_debug args
        end in
      let dd :=
        match arg_static_debug_duration args with
        | Some s => if str_truthy (Some s) then PyStr s else arg_debug_duration args
        | None => arg_debug_duration args
        end in
      rbind (py_float dd) (fun debug_duration =>
      let raw_max :=
        if str_truthy (arg_static_max_recordings args)
        then arg_static_max_recordings args
        else arg_max_recordings args in
      rbind (match raw_max with
             | Some s =>
                 rbind (int_of_string s) (fun m =>
                 Ok (if m =? -1 then PyNone else PyInt m))
             | None => Ok PyNone
             end) (fun max_recordings =>
      Ok {| DEBUG := PyBool debug;
            DEBUG_DURATION := debug_duration;
            MAX_RECORDINGS := max_recordings |}))
  end.

(** ** The results folder and the computations over it *)

Record State : Type := {
  files : gmap path string;   (* regular files and their text *)
  dirs : gset path            (* directories created so far *)
}.

Definition M (A : Type) : Type := State -> result A * State.

Definition ret {A} (a : A) : M A := fun st => (Ok a, st).

Definition raise {A} (e : exn) : M A := fun st => (Raise e, st).

Definition bind {A B} (m : M A) (k : A -> M B) : M B :=
  fun st =>
    match m st with
    | (Ok a, st') => k a st'
    | (Raise e, st') => (Raise e, st')
    end.

Definition lift {A} (r : result A) : M A :=
  fun st => (r, st).

Notation "x <- m ;; k" := (bind m (fun x => k))
  (at level 100, m at next level, right associativity).
Notation "m ;;; k" := (bind m (fun _ => k))
  (at level 100, right associativity).

(** [p.mkdir(parents=True, exist_ok=True)] *)
Definition mkdir (p : path) : M unit :=
  fun st => (Ok tt, {| files := files st; dirs := {[p; parent p]} ∪ dirs st |}).

Definition write_text (p : path) (txt : string) : M unit :=
  fun st => (Ok tt, {| files := <[p := txt]> (files st); dirs := dirs st |}).

(** [with open(p, "w") as f: json.dump(job_dict, f, indent=4, cls=SIJsonEncoder)] *)
Definition open_w_json_dump (env : Env) (p : path) (job_dict : JobDict) : M unit :=
  let '(txt, failure) := json_dump env job_dict in
  write_text p txt ;;;
  match failure with
  | Some e => raise e
  | None => ret tt
  end.

(** [gt_sorting.dump_to_json(p, relative_to=data_folder)] *)
Definition dump_to_json (env : Env) (gt_sorting : Sorting) (p : path) : M unit :=
  txt <- lift (sorting_dumps env gt_sorting) ;;
  write_text p txt.

(** ** Discovery *)

Definition find_zarr_folders (env : Env) : list path :=
  flat_map
    (fun '(root, ds, _) =>
       map (fun d => root ++ [d])
           (List.filter (fun d => String.eqb d "recording.zarr") ds))
    (os_walk data_folder (data_tree env)).

Definition is_dir (env : Env) (p : path) : bool :=
  if bool_decide (take 2 p = data_folder) then
    match lookup_node (data_tree env) (drop 2 p) with
    | Some (Dir _) => true
    | _ => false
    end
  else false.

Definition sorting_zarr_folder (recording_zarr_folder : path) : path :=
  parent recording_zarr_folder ++ ["sorting.zarr"%string].

(** ** Subsampling *)

(** [rng.choice(zarr_folders, size=k, replace=False)] with a fresh
    [default_rng(seed=0)]: the folders at the drawn positions. *)
Definition rng_choice (env : Env) (zarr_folders : list path) (size : Z) : result (list path) :=
  if size <? 0 then Raise (ValueError "negative dimensions are not allowed")
  else Ok (omap (fun i => zarr_folders !! i)
                (choice_indices env (length zarr_folders) (Z.to_nat size))).

(** [if MAX_RECORDINGS is not None and MAX_RECORDINGS < len(zarr_folders)] *)
Definition subsample_guard (max_recordings : pyval) (zarr_folders : list path) : result bool :=
  let len := Z.of_nat (length zarr_folders) in
  match max_recordings with
  | PyNone => Ok false
  | PyInt m => Ok (m <? len)
  | PyBool b => Ok (Z.b2z b <? len)
  | PyFloat x => Ok (float_ltb_Z x len)
  | _ => Raise (TypeError "'<' not supported between these instances")
  end.

Definition subsample (env : Env) (max_recordings : pyval) (zarr_folders : list path)
  : result (list path) :=
  rbind (subsample_guard max_recordings zarr_folders) (fun sampling =>
  if sampling then
    match max_recordings with
    | PyInt m => rng_choice env zarr_folders m
    | _ => Raise (TypeError "size cannot be interpreted as an integer")
    end
  else Ok zarr_folders).

(** ** Per-folder processing *)

(** [min(int(DEBUG_DURATION * recording.sampling_frequency), recording.get_num_samples())] *)
Definition debug_end_frame (debug_duration : F) (recording : Recording) : result Z :=
  match int_of_float (fmul debug_duration (sampling_frequency recording)) with
  | Some k => Ok (Z.min k (get_num_samples recording))
  | None => Raise OverflowError
  end.

(** The debug branch: the recording actually used, its rounded duration,
    the sorting actually dumped, and the two end frames that were applied
    (the end frames are [None] when debug is off). *)
Record Prepared : Type := {
  p_recording : Recording;
  p_duration : F;
  p_gt_sorting : Sorting;
  p_recording_end : option Z;
  p_sorting_end : option Z
}.

Definition prepare (cfg : Config) (recording : Recording) (gt_sorting : Sorting)
  : result Prepared :=
  if truthy (DEBUG cfg) then
    rbind (debug_end_frame (DEBUG_DURATION cfg) recording) (fun e =>
    rbind (frame_slice recording 0 e) (fun recording' =>
    let duration := np_round2 (get_total_duration recording') in
    rbind (debug_end_frame (DEBUG_DURATION cfg) recording') (fun e' =>
    rbind (sorting_frame_slice gt_sorting 0 e') (fun gt_sorting' =>
    Ok {| p_recording := recording'; p_duration := duration;
          p_gt_sorting := gt_sorting';
          p_recording_end := Some e; p_sorting_end := Some e' |}))))
  else
    Ok {| p_recording := recording;
          p_duration := np_round2 (get_total_duration recording);
          p_gt_sorting := gt_sorting;
          p_recording_end := None; p_sorting_end := None |}.

Definition si_load_recording (env : Env) (p : path) : result Recording :=
  match load_recording env p with
  | Some info => Ok (ZarrRecording p info)
  | None => Raise (LoadError p)
  end.

Definition si_load_sorting (env : Env) (p : path) : result Sorting :=
  if load_sorting env p then Ok (ZarrSorting p) else Raise (LoadError p).

Definition recordings_folder : path := results_folder ++ ["recordings"%string].
Definition flattened_folder : path := results_folder ++ ["flattened"%string].

(** [f"{session_name}__{recording_name}"] *)
Definition derived_name (session_name recording_name : string) : string :=
  session_name +:+ "__" +:+ recording_name.

Definition job_file (recording_name : string) : string :=
  "job_" +:+ recording_name +:+ ".json".

Definition gt_file (recording_name : string) : string :=
  "gt_" +:+ recording_name +:+ ".json".

Definition make_job_dict (cfg : Config) (session_name recording_name : string)
    (prep : Prepared) : JobDict :=
  {| jd_session_name := session_name;
     jd_recording_name := derived_name session_name recording_name;
     jd_recording_dict := p_recording prep;
     jd_duration := p_duration prep;
     jd_input_folder := session_name;
     jd_debug := DEBUG cfg |}.

(** One turn of the loop; [true] when the counter is incremented. *)
Definition process_folder (env : Env) (cfg : Config) (recording_zarr_folder : path)
  : M bool :=
  if negb (is_dir env (sorting_zarr_folder recording_zarr_folder)) then ret false
  else
    let session_name := name (parents1 recording_zarr_folder) in
    let recording_name := name (parent recording_zarr_folder) in
    recording <- lift (si_load_recording env recording_zarr_folder) ;;
    gt_sorting <- lift (si_load_sorting env (sorting_zarr_folder recording_zarr_folder)) ;;
    prep <- lift (prepare cfg recording gt_sorting) ;;
    let job_dict := make_job_dict cfg session_name recording_name prep in
    let recording_name := jd_recording_name job_dict in
    open_w_json_dump env (recordings_folder ++ [job_file recording_name]) job_dict ;;;
    open_w_json_dump env (flattened_folder ++ [job_file recording_name]) job_dict ;;;
    dump_to_json env (p_gt_sorting prep) (flattened_folder ++ [gt_file recording_name]) ;;;
    ret true.

Fixpoint generate (env : Env) (cfg : Config) (zarr_folders : list path) (i : Z) : M Z :=
  match zarr_folders with
  | [] => ret i
  | recording_zarr_folder :: rest =>
      generated <- process_folder env cfg recording_zarr_folder ;;
      generate env cfg rest (if generated then i + 1 else i)
  end.

(** ** The script; its value is the count it reports *)

Definition run (env : Env) (args : Args) : M Z :=
  cfg <- lift (resolve_config env args) ;;
  mkdir recordings_folder ;;;
  mkdir flattened_folder ;;;
  let zarr_folders := find_zarr_folders env in
  selected <- lift (subsample env (MAX_RECORDINGS cfg) zarr_folders) ;;
  generate env cfg selected 0.

(** ** Derived notions used to state the properties *)

(** The sibling check of the loop. *)
Definition has_sorting (env : Env) (recording_zarr_folder : path) : bool :=
  is_dir env (sorting_zarr_folder recording_zarr_folder).

(** The name under which the files of a folder are written. *)
Definition folder_name (recording_zarr_folder : path) : string :=
  derived_name (name (parents1 recording_zarr_folder))
               (name (parent recording_zarr_folder)).

(** The job descriptor built for a folder. *)
Definition job_dict_of (env : Env) (cfg : Config) (recording_zarr_folder : path)
  : result JobDict :=
  rbind (si_load_recording env recording_zarr_folder) (fun recording =>
  rbind (si_load_sorting env (sorting_zarr_folder recording_zarr_folder)) (fun gt_sorting =>
  rbind (prepare cfg recording gt_sorting) (fun prep =>
  Ok (make_job_dict cfg (name (parents1 recording_zarr_folder))
                    (name (parent recording_zarr_folder)) prep)))).

(** The folders the loop iterates over. *)
Definition selected_folders (env : Env) (cfg : Config) : result (list path) :=
  subsample env (MAX_RECORDINGS cfg) (find_zarr_folders env).

Definition recordings_job (recording_name : string) : path :=
  recordings_folder ++ [job_file recording_name].

Definition flattened_job (recording_name : string) : path :=
  flattened_folder ++ [job_file recording_name].

Definition flattened_gt (recording_name : string) : path :=
  flattened_folder ++ [gt_file recording_name].

(** The state after the three writes of one turn. *)
Definition after_writes (st : State) (recording_name txt gt_txt : string) : State :=
  {| files := <[flattened_gt recording_name := gt_txt]>
                (<[flattened_job recording_name := txt]>
                   (<[recordings_job recording_name := txt]> (files st)));
     dirs := dirs st |}.

(** Both copies of the job file of a name exist and hold the same text. *)
Definition copies_agree (st : State) (recording_name : string) : Prop :=
  exists txt,
    files st !! recordings_job recording_name = Some txt /\
    files st !! flattened_job recording_name = Some txt.

(** The state after the two [mkdir] calls. *)
Definition after_mkdirs (st : State) : State :=
  {| files := files st;
     dirs := {[flattened_folder; parent flattened_folder]} ∪
             ({[recordings_folder; parent recordings_folder]} ∪ dirs st) |}.

End Model.

Arguments pyval F : clear implicits.
Arguments Env F : clear implicits.
Arguments Args F : clear implicits.
Arguments Config F : clear implicits.
Arguments ZarrInfo F : clear implicits.
Arguments Recording F : clear implicits.
Arguments JobDict F : clear implicits.
Arguments Prepared F : clear implicits.

(** ** Exact rationals as an instance of the float operations *)

Definition Q_trunc (q : Q) : Z := Z.quot (Qnum q) (Zpos (Qden q)).

(** Nearest integer, ties to the even one, as [rint] does. *)
Definition Q_rint (q : Q) : Z :=
  let f := Qfloor q in
  match (q - inject_Z f ?= 1 # 2)%Q with
  | Lt => f
  | Gt => f + 1
  | Eq => if Z.even f then f else f + 1
  end.

(** [np.round(x, 2)] multiplies by 100, rounds to the nearest integer and
    divides by 100. *)
Definition Q_round2 (q : Q) : Q := (inject_Z (Q_rint (q * 100)) / 100)%Q.

Fixpoint split_dot (l : list ascii) : list ascii * option (list ascii) :=
  match l with
  | [] => ([], None)
  | c :: r =>
      if Ascii.eqb c "." then ([], Some r)
      else let '(a, b) := split_dot r in (c :: a, b)
  end.

Definition plain_digits (l : list ascii) : option Z :=
  match l with
  | [] => Some 0
  | _ => if forallb is_digit l then digits_value 0 false l else None
  end.

(** Decimal literals [sign digits . digits]; exponents, [inf] and [nan]
    have no rational value and are rejected. *)
Definition Q_of_string (s : string) : option Q :=
  let body := strip (list_ascii_of_string s) in
  let '(negative, body) :=
    match body with
    | "-"%char :: r => (true, r)
    | "+"%char :: r => (false, r)
    | _ => (false, body)
    end in
  let '(ip, fp) := split_dot body in
  let fp := default [] fp in
  match ip ++ fp with
  | [] => None
  | _ =>
      match plain_digits ip, plain_digits fp with
      | Some a, Some b =>
          let v := (inject_Z a + inject_Z b / inject_Z (10 ^ Z.of_nat (length fp)))%Q in
          Some (if negative then (- v)%Q else v)
      | _, _ => None
      end
  end.

#[export] Instance Q_FloatOps : FloatOps Q := {|
  float_of_Z := inject_Z;
  float_of_string := Q_of_string;
  fmul := Qmult;
  fdiv := Qdiv;
  int_of_float := fun q => Some (Q_trunc q);
  np_round2 := Q_round2;
  float_ltb_Z := fun q n => negb (Qle_bool (inject_Z n) q);
  float_is_zero := fun q => Qeq_bool q 0
|}.

(** The same with one more value, [None], standing for [inf] and [nan]:
    it absorbs products and quotients and has no integer part. *)
#[export] Instance Extended_FloatOps : FloatOps (option Q) := {|
  float_of_Z := fun z => Some (inject_Z z);
  float_of_string := fun s =>
    if (String.eqb (str_lower s) "inf" || String.eqb (str_lower s) "nan")%bool
    then Some None
    else option_map Some (Q_of_string s);
  fmul := fun a b =>
    match a, b with
    | Some x, Some y => Some (x * y)%Q
    | _, _ => None
    end;
  fdiv := fun a b =>
    match a, b with
    | Some x, Some y => if Qeq_bool y 0 then None else Some (x / y)%Q
    | _, _ => None
    end;
  int_of_float := option_map Q_trunc;
  np_round2 := option_map Q_round2;
  float_ltb_Z := fun a n =>
    match a with
    | Some q => negb (Qle_bool (inject_Z n) q)
    | None => false
    end;
  float_is_zero := fun a =>
    match a with
    | Some q => Qeq_bool q 0
    | None => false
    end
|}.

(** ** Sample surroundings, used to run the model on concrete inputs *)

Definition dq : string := String (ascii_of_nat 34) EmptyString.

(** [{"debug": true}] *)
Definition blob_debug_only : string :=
  "{" +:+ dq +:+ "debug" +:+ dq +:+ ": true}".

(** [{"debug_duration": 30, "max_recordings": -1}] *)
Definition blob_minus_one : string :=
  "{" +:+ dq +:+ "debug_duration" +:+ dq +:+ ": 30, " +:+
  dq +:+ "max_recordings" +:+ dq +:+ ": -1}".

(** A decoder that knows the blobs above, and nothing else. *)
Definition sample_json_loads (s : string) : option (pyval Q) :=
  if String.eqb s blob_debug_only then
    Some (PyDict (<["debug" := PyBool true]> ∅))
  else if String.eqb s blob_minus_one then
    Some (PyDict (<["debug_duration" := PyInt 30]> (<["max_recordings" := PyInt (-1)]> ∅)))
  else None.

Definition case_dir (with_sorting : bool) : node :=
  Dir (("recording.zarr"%string, Dir []) ::
       (if with_sorting then [("sorting.zarr"%string, Dir [])] else [])).

(** One session [s1] with cases [c1] (paired) and [c2] (no sorting). *)
Definition tree_two_cases : node :=
  Dir [("s1"%string, Dir [("c1"%string, case_dir true); ("c2"%string, case_dir false)])].

(** One session with eleven cases, all paired but the one at position [i]. *)
Definition tree_unpaired_at (i : nat) : node :=
  Dir [("s"%string,
        Dir (imap (fun j c => (c, case_dir (negb (Nat.eqb j i))))
                  ["c00"; "c01"; "c02"; "c03"; "c04"; "c05";
                   "c06"; "c07"; "c08"; "c09"; "c10"]%string))].

(** One session with ten paired cases. *)
Definition tree_ten : node :=
  Dir [("s"%string,
        Dir (map (fun c => (c, case_dir true))
                 ["c01"; "c02"; "c03"; "c04"; "c05";
                  "c06"; "c07"; "c08"; "c09"; "c10"]%string))].

(** Two batches holding a session and a case of the same names. *)
Definition tree_same_names : node :=
  Dir [("batch1"%string, Dir [("s"%string, Dir [("c"%string, case_dir true)])]);
       ("batch2"%string, Dir [("s"%string, Dir [("c"%string, case_dir true)])])].

Definition sample_info (fs : Q) (n : Z) : ZarrInfo Q :=
  {| zarr_sampling_frequency := fs; zarr_num_samples := n; zarr_num_channels := 4 |}.

(** The text written for a job: its name and the folder it was loaded from. *)
Fixpoint recording_origin (r : Recording Q) : path :=
  match r with
  | ZarrRecording p _ => p
  | FrameSliceRecording p _ _ => recording_origin p
  end.

Definition sample_json_dump (d : JobDict Q) : string * option exn :=
  (jd_recording_name d +:+ " from " +:+
   String.concat "/" (recording_origin (jd_recording_dict d)), None).

Definition sample_env (tree : node) (draw : nat -> nat -> list nat) : Env Q :=
  {| json_loads := sample_json_loads;
     is_file := fun _ => false;
     read_text := fun _ => ""%string;
     data_tree := tree;
     load_recording := fun _ => Some (sample_info 30000%Q 3600000);
     load_sorting := fun _ => true;
     json_dump := sample_json_dump;
     sorting_dumps := fun _ => Ok "gt"%string;
     os_entropy := 0;
     generator_choice := fun _ => draw |}.

(** A draw that takes the first positions, and one that takes the last. *)
Definition first_positions (n k : nat) : list nat := seq 0 k.
Definition last_positions (n k : nat) : list nat := seq (n - k) k.

Definition cli_args (debug : bool) (debug_duration : pyval Q) (max_recordings : option string)
  : Args Q :=
  {| arg_debug := debug;
     arg_static_debug := None;
     arg_debug_duration := debug_duration;
     arg_static_debug_duration := None;
     arg_max_recordings := max_recordings;
     arg_static_max_recordings := None;
     arg_params := None |}.

Definition params_args (blob : string) : Args Q :=
  {| arg_debug := false;
     arg_static_debug := None;
     arg_debug_duration := PyInt 30;
     arg_static_debug_duration := None;
     arg_max_recordings := None;
     arg_static_max_recordings := None;
     arg_params := Some blob |}.

Definition empty_results : State := {| files := ∅; dirs := ∅ |}.

(** Number of regular files directly inside a folder. *)
Definition files_in (folder : path) (st : State) : nat :=
  size (filter (fun kv => parent (fst kv) = folder) (files st)).

Definition env_two_cases : Env Q := sample_env tree_two_cases first_positions.
Definition env_ten : Env Q := sample_env tree_ten last_positions.
Definition env_same_names : Env Q := sample_env tree_same_names first_positions.

(** [--max-recordings 3] *)
Definition args_cap3 : Args Q := cli_args false (PyInt 30) (Some "3"%string).
(** [--debug] *)
Definition args_debug : Args Q := cli_args true (PyInt 30) None.
(** no option at all *)
Definition args_default : Args Q := cli_args false (PyInt 30) None.
(** [--max-recordings -1] *)
Definition args_cli_minus_one : Args Q := cli_args false (PyInt 30) (Some "-1"%string).

Definition cfg_debug (debug_duration : Q) : Config Q :=
  {| DEBUG := PyBool true; DEBUG_DURATION := debug_duration; MAX_RECORDINGS := PyNone |}.

Definition cfg_default : Config Q :=
  {| DEBUG := PyBool false; DEBUG_DURATION := 30%Q; MAX_RECORDINGS := PyNone |}.

Definition cfg_capped (debug : bool) (cap : Z) : Config Q :=
  {| DEBUG := PyBool debug; DEBUG_DURATION := 30%Q; MAX_RECORDINGS := PyInt cap |}.

Definition sample_folder : path :=
  [".."; "data"; "s1"; "c1"; "recording.zarr"]%string.

(** 120 s at 30 kHz, and 100 s at 8 Hz. *)
Definition fast_recording : Recording Q :=
  ZarrRecording sample_folder (sample_info 30000%Q 3600000).

Definition sample_sorting : Sorting :=
  ZarrSorting (sorting_zarr_folder sample_folder).

(** ** One turn and the whole loop, read as values *)

Section Reading.
Context {F : Type} `{!FloatOps F}.

(** What one turn of the loop writes: nothing for a folder without sorting,
    otherwise the text of the job file and the text of the sorting file. *)
Definition turn_texts (env : Env F) (cfg : Config F) (recording_zarr_folder : path)
  : result (option (string * string)) :=
  if negb (has_sorting env recording_zarr_folder) then Ok None
  else
    rbind (si_load_recording env recording_zarr_folder) (fun recording =>
    rbind (si_load_sorting env (sorting_zarr_folder recording_zarr_folder)) (fun gt_sorting =>
    rbind (prepare cfg recording gt_sorting) (fun prep =>
    let job_dict :=
      make_job_dict cfg (name (parents1 recording_zarr_folder))
                    (name (parent recording_zarr_folder)) prep in
    match snd (json_dump env job_dict) with
    | Some e => Raise e
    | None =>
        rbind (sorting_dumps env (p_gt_sorting prep)) (fun gt_txt =>
        Ok (Some (fst (json_dump env job_dict), gt_txt)))
    end))).

(** The writes of the loop, in order: derived name, job text, sorting text. *)
Fixpoint loop_texts (env : Env F) (cfg : Config F) (zarr_folders : list path)
  : result (list (string * string * string)) :=
  match zarr_folders with
  | [] => Ok []
  | recording_zarr_folder :: rest =>
      rbind (turn_texts env cfg recording_zarr_folder) (fun w =>
      rbind (loop_texts env cfg rest) (fun ws =>
      Ok (match w with
          | Some (txt, gt_txt) => (folder_name recording_zarr_folder, txt, gt_txt) :: ws
          | None => ws
          end)))
  end.

End Reading.

Fixpoint apply_writes (ws : list (string * string * string)) (st : State) : State :=
  match ws with
  | [] => st
  | (recording_name, txt, gt_txt) :: rest =>
      apply_writes rest (after_writes st recording_name txt gt_txt)
  end.

(** The three paths written for a name. *)
Definition written_paths (recording_name : string) : list path :=
  [recordings_job recording_name; flattened_job recording_name;
   flattened_gt recording_name].

(** Sibling entries of every directory of the tree have distinct names. *)
Fixpoint unique_names (n : node) : Prop :=
  match n with
  | File => True
  | Dir entries =>
      NoDup (map fst entries) /\
      (fix all (es : list (string * node)) : Prop :=
         match es with
         | [] => True
         | (_, child) :: r => unique_names child /\ all r
         end) entries
  end.

(** Surroundings in which the recording of case [c1] cannot be loaded. *)
Definition env_unloadable : Env Q :=
  {| json_loads := sample_json_loads;
     is_file := fun _ => false;
     read_text := fun _ => ""%string;
     data_tree := tree_ten;
     load_recording := fun p =>
       if bool_decide (p = [".."; "data"; "s"; "c03"; "recording.zarr"]%string)
       then None else Some (sample_info 30000%Q 3600000);
     load_sorting := fun _ => true;
     json_dump := sample_json_dump;
     sorting_dumps := fun _ => Ok "gt"%string;
     os_entropy := 0;
     generator_choice := fun _ => first_positions |}.

(** A params file that exists and does not hold JSON, and a blob [[1]]
    that decodes to a list. *)
Definition env_bad_file : Env Q :=
  {| json_loads := fun s => if String.eqb s "[1]" then Some (PyList [PyInt 1]) else None;
     is_file := fun s => String.eqb s "params.json";
     read_text := fun _ => "not json"%string;
     data_tree := tree_two_cases;
     load_recording := fun _ => Some (sample_info 30000%Q 3600000);
     load_sorting := fun _ => true;
     json_dump := sample_json_dump;
     sorting_dumps := fun _ => Ok "gt"%string;
     os_entropy := 0;
     generator_choice := fun _ => first_positions |}.


(** A results folder that already holds a file of its own. *)
Definition results_with_note : State :=
  {| files := {[ [".."; "results"; "notes.txt"]%string := "keep"%string ]};
     dirs := ∅ |}.

Definition case_folder (c : string) : path :=
  [".."; "data"; "s"; c; "recording.zarr"]%string.


(** ** States of the results folder in which the run can write *)

(** No regular file sits where an output folder is to be created. *)
Definition output_folders_free (st : State) : Prop :=
  files st !! results_folder = None /\
  files st !! recordings_folder = None /\
  files st !! flattened_folder = None.




(** ** Sample generators *)

(** A draw that starts at a position given by the seed. *)
Definition seeded_positions (seed : Z) (n k : nat) : list nat :=
  seq (Z.to_nat (seed mod (Z.of_nat (n - k) + 1))) k.

(** Two runs over the ten paired cases: they share the generator, and
    differ in entropy, loaders and encoders. *)
Definition env_first_run : Env Q :=
  {| json_loads := sample_json_loads;
     is_file := fun _ => false;
     read_text := fun _ => ""%string;
     data_tree := tree_ten;
     load_recording := fun _ => Some (sample_info 30000%Q 3600000);
     load_sorting := fun _ => true;
     json_dump := sample_json_dump;
     sorting_dumps := fun _ => Ok "gt"%string;
     os_entropy := 5;
     generator_choice := seeded_positions |}.

Definition env_second_run : Env Q :=
  {| json_loads := fun _ => None;
     is_file := fun _ => false;
     read_text := fun _ => ""%string;
     data_tree := tree_ten;
     load_recording := fun _ => Some (sample_info 8%Q 800);
     load_sorting := fun _ => true;
     json_dump := fun d => (jd_recording_name d, None);
     sorting_dumps := fun _ => Ok "sorting"%string;
     os_entropy := 7;
     generator_choice := seeded_positions |}.

(** A tree read without any draw. *)
Definition env_of_tree (tree : node) : Env Q := sample_env tree (fun _ _ => []).

Definition paired_folders (tree : node) : list path :=
  List.filter (has_sorting (env_of_tree tree)) (find_zarr_folders (env_of_tree tree)).

(** The eleven listings of ten paired cases and one unpaired case. *)
Definition eleven_listings : list node := map tree_unpaired_at (seq 0 11).

(** * Properties *)

Section Proofs.
Context {F : Type} `{!FloatOps F}.

Implicit Types (env : Env F) (args : Args F) (cfg : Config F) (st : State).
Implicit Types (recording : Recording F) (gt_sorting : Sorting) (prep : Prepared F).

(** ** Plumbing of the state-and-error computations *)

Lemma bind_ok {A B} (m : M A) (k : A -> M B) st a st' :
  m st = (Ok a, st') -> bind m k st = k a st'.
Proof. intros E. unfold bind. now rewrite E. Qed.

Lemma bind_raise {A B} (m : M A) (k : A -> M B) st e st' :
  m st = (Raise e, st') -> bind m k st = (Raise e, st').
Proof. intros E. unfold bind. now rewrite E. Qed.

Lemma bind_inv_ok {A B} (m : M A) (k : A -> M B) st b st2 :
  bind m k st = (Ok b, st2) ->
  exists a st1, m st = (Ok a, st1) /\ k a st1 = (Ok b, st2).
Proof.
  unfold bind. destruct (m st) as [[a|e] st1]; intros E.
  - now exists a, st1.
  - discriminate.
Qed.

Lemma lift_inv_ok {A} (r : result A) st a st' :
  lift r st = (Ok a, st') -> r = Ok a /\ st' = st.
Proof. unfold lift. intros E. now inversion E. Qed.

Lemma rbind_inv_ok {A B} (r : result A) (k : A -> result B) b :
  rbind r k = Ok b -> exists a, r = Ok a /\ k a = Ok b.
Proof. destruct r as [a|e]; simpl; intros E; [now exists a | discriminate]. Qed.

(** ** Configuration *)

Lemma load_params_invalid env PARAMS :
  json_loads env PARAMS = None ->
  is_file env PARAMS = false ->
  load_params env PARAMS =
    Raise (ValueError ("Invalid parameters: " +:+ PARAMS +:+
                       " is not a valid JSON string or file path")).
Proof. intros Hj Hf. unfold load_params. now rewrite Hj, Hf. Qed.

(** C6: a params value that neither decodes as JSON nor names an existing
    file makes the run raise a [ValueError] naming the value; the results
    folder is left exactly as it was (nothing is created or written), and
    the failure comes from configuration resolution, ahead of discovery. *)
Theorem invalid_params_abort_before_discovery env args (PARAMS : string) st :
  arg_params args = Some PARAMS ->
  json_loads env PARAMS = None ->
  is_file env PARAMS = false ->
  resolve_config env args =
    Raise (ValueError ("Invalid parameters: " +:+ PARAMS +:+
                       " is not a valid JSON string or file path")) /\
  run env args st =
    (Raise (ValueError ("Invalid parameters: " +:+ PARAMS +:+
                        " is not a valid JSON string or file path")), st).
Proof.
  intros Hp Hj Hf.
  assert (Hcfg : resolve_config env args =
    Raise (ValueError ("Invalid parameters: " +:+ PARAMS +:+
                       " is not a valid JSON string or file path"))).
  { unfold resolve_config. rewrite Hp.
    now rewrite (load_params_invalid env PARAMS Hj Hf). }
  split; [exact Hcfg|].
  unfold run. apply bind_raise. unfold lift. now rewrite Hcfg.
Qed.

(** A blob that decodes to a dict without ["debug_duration"] makes
    [float(None)] raise, whatever else the blob holds. *)
Lemma resolve_config_blob_without_duration env args PARAMS (d : gmap string (pyval F)) :
  arg_params args = Some PARAMS ->
  load_params env PARAMS = Ok (PyDict d) ->
  d !! "debug_duration"%string = None ->
  resolve_config env args =
    Raise (TypeError "float() argument must be a string or a real number, not 'NoneType'").
Proof.
  intros Hp Hl Hd. unfold resolve_config. rewrite Hp, Hl. simpl.
  now rewrite Hd.
Qed.

(** On the command line, [-1] is turned into [None]. *)
Lemma resolve_config_cli_minus_one env args (s : string) :
  arg_params args = None ->
  (if str_truthy (arg_static_max_recordings args)
   then arg_static_max_recordings args
   else arg_max_recordings args) = Some s ->
  int_of_string s = Ok (-1) ->
  forall cfg, resolve_config env args = Ok cfg -> MAX_RECORDINGS cfg = PyNone.
Proof.
  intros Hp Hm Hi cfg. unfold resolve_config. rewrite Hp.
  intros E. apply rbind_inv_ok in E as (x & _ & E).
  rewrite Hm, Hi in E. simpl in E. now inversion E.
Qed.

(** In a blob, [-1] stays [-1]. *)
Lemma resolve_config_blob_keeps_max env args PARAMS (d : gmap string (pyval F)) cfg :
  arg_params args = Some PARAMS ->
  load_params env PARAMS = Ok (PyDict d) ->
  resolve_config env args = Ok cfg ->
  MAX_RECORDINGS cfg = default PyNone (d !! "max_recordings"%string).
Proof.
  intros Hp Hl. unfold resolve_config. rewrite Hp, Hl. simpl.
  intros E. apply rbind_inv_ok in E as (x & _ & E). now inversion E.
Qed.

(** A negative cap always passes the subsampling guard. *)
Lemma subsample_guard_negative (m : Z) (zarr_folders : list path) :
  m < 0 -> subsample_guard (F := F) (PyInt m) zarr_folders = Ok true.
Proof.
  intros Hm. simpl. f_equal. apply Z.ltb_lt. lia.
Qed.

Lemma subsample_negative_raises env (m : Z) (zarr_folders : list path) :
  m < 0 ->
  subsample env (PyInt m) zarr_folders =
    Raise (ValueError "negative dimensions are not allowed").
Proof.
  intros Hm. unfold subsample. rewrite subsample_guard_negative by exact Hm.
  simpl. unfold rng_choice.
  now replace (m <? 0) with true by (symmetry; apply Z.ltb_lt; lia).
Qed.

(** ** Debug truncation *)

Lemma frame_slice_from_zero recording (e : Z) :
  0 < e -> e <= get_num_samples recording ->
  frame_slice recording 0 e = Ok (FrameSliceRecording recording 0 e).
Proof.
  intros H0 Hn. unfold frame_slice.
  replace (e =? 0) with false by (symmetry; apply Z.eqb_neq; lia).
  replace (0 <=? 0) with true by reflexivity.
  replace (0 <? get_num_samples recording) with true by (symmetry; apply Z.ltb_lt; lia).
  replace (0 <? e) with true by (symmetry; apply Z.ltb_lt; lia).
  replace (e <=? get_num_samples recording) with true by (symmetry; apply Z.leb_le; lia).
  reflexivity.
Qed.

Lemma frame_slice_inv recording (s e : Z) (r' : Recording F) :
  frame_slice recording s e = Ok r' ->
  (e = 0 /\ r' = FrameSliceRecording recording s (get_num_samples recording) /\
   0 <= s < get_num_samples recording) \/
  (r' = FrameSliceRecording recording s e /\
   0 <= s /\ s < e /\ e <= get_num_samples recording).
Proof.
  unfold frame_slice. cbv zeta.
  destruct (e =? 0) eqn:E0.
  - apply Z.eqb_eq in E0.
    destruct (0 <=? s) eqn:E1; [|discriminate].
    destruct (s <? get_num_samples recording) eqn:E2; [|discriminate].
    destruct (0 <? get_num_samples recording) eqn:E3; [|discriminate].
    destruct (get_num_samples recording <=? get_num_samples recording); [|discriminate].
    simpl. intros E. inversion E. left.
    apply Z.leb_le in E1. apply Z.ltb_lt in E2. auto.
  - destruct (0 <=? s) eqn:E1; [|discriminate].
    destruct (s <? get_num_samples recording) eqn:E2; [|discriminate].
    destruct (0 <? e) eqn:E3; [|discriminate].
    destruct (e <=? get_num_samples recording) eqn:E4; [|discriminate].
    destruct (s <? e) eqn:E5; [|discriminate].
    simpl. intros E. inversion E. right.
    apply Z.leb_le in E1, E4. apply Z.ltb_lt in E5. auto.
Qed.

(** The debug branch, when the recording can be cut. *)
Lemma prepare_debug_ok cfg recording gt_sorting (k : Z) :
  truthy (DEBUG cfg) = true ->
  int_of_float (fmul (DEBUG_DURATION cfg) (sampling_frequency recording)) = Some k ->
  0 < Z.min k (get_num_samples recording) ->
  let e := Z.min k (get_num_samples recording) in
  prepare cfg recording gt_sorting =
    Ok {| p_recording := FrameSliceRecording recording 0 e;
          p_duration := np_round2 (get_total_duration (FrameSliceRecording recording 0 e));
          p_gt_sorting := FrameSliceSorting gt_sorting 0 e;
          p_recording_end := Some e;
          p_sorting_end := Some e |}.
Proof.
  intros Hd Hk He e. unfold prepare. rewrite Hd.
  unfold debug_end_frame at 1. rewrite Hk. simpl rbind.
  fold e. rewrite frame_slice_from_zero by (subst e; lia).
  simpl rbind. unfold debug_end_frame. simpl sampling_frequency. rewrite Hk.
  simpl rbind. cbn [get_num_samples].
  replace (Z.min k (e - 0)) with e by (subst e; lia).
  unfold sorting_frame_slice.
  replace (0 <? e) with true by (symmetry; apply Z.ltb_lt; lia).
  reflexivity.
Qed.

(** Conversely, whenever the debug branch returns, it returned that. *)
Lemma prepare_debug_inv cfg recording gt_sorting prep :
  truthy (DEBUG cfg) = true ->
  prepare cfg recording gt_sorting = Ok prep ->
  exists k,
    int_of_float (fmul (DEBUG_DURATION cfg) (sampling_frequency recording)) = Some k /\
    0 < Z.min k (get_num_samples recording) /\
    p_recording_end prep = Some (Z.min k (get_num_samples recording)) /\
    p_sorting_end prep = p_recording_end prep /\
    p_recording prep =
      FrameSliceRecording recording 0 (Z.min k (get_num_samples recording)) /\
    p_duration prep = np_round2 (get_total_duration (p_recording prep)).
Proof.
  intros Hd Hp.
  destruct (int_of_float (fmul (DEBUG_DURATION cfg) (sampling_frequency recording)))
    as [k|] eqn:Hk.
  - exists k. split; [reflexivity|].
    destruct (Z_lt_le_dec 0 (Z.min k (get_num_samples recording))) as [Hpos|Hneg].
    + rewrite (prepare_debug_ok cfg recording gt_sorting k Hd Hk Hpos) in Hp.
      inversion Hp. simpl. auto.
    + exfalso. unfold prepare in Hp. rewrite Hd in Hp.
      unfold debug_end_frame in Hp at 1. rewrite Hk in Hp. cbn [rbind] in Hp.
      apply rbind_inv_ok in Hp as (r' & Hfs & Hp).
      apply frame_slice_inv in Hfs as [(He & -> & Hs) | (_ & _ & Hlt & _)]; [|lia].
      unfold debug_end_frame in Hp. cbn [sampling_frequency get_num_samples] in Hp.
      rewrite Hk in Hp. cbn [rbind] in Hp.
      apply rbind_inv_ok in Hp as (gt' & Hgt & _).
      unfold sorting_frame_slice in Hgt.
      replace (0 <? Z.min k (get_num_samples recording - 0)) with false in Hgt
        by (symmetry; apply Z.ltb_ge; lia).
      discriminate.
  - exfalso. unfold prepare in Hp. rewrite Hd in Hp.
    unfold debug_end_frame in Hp at 1. rewrite Hk in Hp. discriminate.
Qed.

(** C4: with debug on, the debug branch returns exactly when the recording
    can be cut at [e = min(int(debug_duration * sampling_frequency),
    total_samples)], and then the recording and the sorting are both cut to
    [0, e): the end frame computed again from the cut recording, which is
    the one applied to the sorting, is [e] itself. *)
Theorem debug_truncation_endpoints_agree cfg recording gt_sorting prep :
  truthy (DEBUG cfg) = true ->
  prepare cfg recording gt_sorting = Ok prep <->
  exists k : Z,
    int_of_float (fmul (DEBUG_DURATION cfg) (sampling_frequency recording)) = Some k /\
    0 < Z.min k (get_num_samples recording) /\
    prep =
      {| p_recording :=
           FrameSliceRecording recording 0 (Z.min k (get_num_samples recording));
         p_duration :=
           np_round2 (get_total_duration
                        (FrameSliceRecording recording 0
                           (Z.min k (get_num_samples recording))));
         p_gt_sorting :=
           FrameSliceSorting gt_sorting 0 (Z.min k (get_num_samples recording));
         p_recording_end := Some (Z.min k (get_num_samples recording));
         p_sorting_end := Some (Z.min k (get_num_samples recording)) |}.
Proof.
  intros Hd. split.
  - intros Hp.
    destruct (prepare_debug_inv cfg recording gt_sorting prep Hd Hp)
      as (k & Hk & Hpos & _).
    exists k. split; [exact Hk|]. split; [exact Hpos|].
    pose proof (prepare_debug_ok cfg recording gt_sorting k Hd Hk Hpos) as Hok.
    cbv zeta in Hok. rewrite Hp in Hok. now injection Hok.
  - intros (k & Hk & Hpos & ->).
    exact (prepare_debug_ok cfg recording gt_sorting k Hd Hk Hpos).
Qed.


(** ** File names *)

Lemma append_cons (c : ascii) (s t : string) :
  String c s +:+ t = String c (s +:+ t).
Proof. reflexivity. Qed.

Lemma append_length (s t : string) :
  String.length (s +:+ t) = (String.length s + String.length t)%nat.
Proof.
  induction s as [|c s IH]; [reflexivity|].
  rewrite append_cons. cbn [String.length]. now rewrite IH.
Qed.

Lemma append_inj_suffix (t s1 s2 : string) : s1 +:+ t = s2 +:+ t -> s1 = s2.
Proof.
  revert s2. induction s1 as [|c s1 IH]; intros [|c' s2] E.
  - reflexivity.
  - apply (f_equal String.length) in E.
    rewrite append_cons in E. cbn [String.length] in E.
    rewrite !append_length in E. cbn [String.length] in E. lia.
  - apply (f_equal String.length) in E.
    rewrite append_cons in E. cbn [String.length] in E.
    rewrite !append_length in E. cbn [String.length] in E. lia.
  - rewrite !append_cons in E. inversion E. f_equal. now apply IH.
Qed.

Lemma job_file_inj (n m : string) : job_file n = job_file m -> n = m.
Proof.
  unfold job_file. intros E. apply String.app_inj in E.
  now apply append_inj_suffix in E.
Qed.

Lemma job_file_not_gt_file (n m : string) : job_file n <> gt_file m.
Proof. unfold job_file, gt_file. rewrite !append_cons. discriminate. Qed.

(** Paths below the two output folders differ in their third part. *)
Ltac other_folder :=
  unfold recordings_job, flattened_job, flattened_gt,
         recordings_folder, flattened_folder, results_folder;
  cbn [app]; let E := fresh in intros E; inversion E.

Lemma after_writes_recordings_job st (m txt gt_txt n : string) :
  files (after_writes st m txt gt_txt) !! recordings_job n =
    if decide (job_file m = job_file n) then Some txt
    else files st !! recordings_job n.
Proof.
  unfold after_writes. cbn [files].
  rewrite lookup_insert_ne by other_folder.
  rewrite lookup_insert_ne by other_folder.
  rewrite lookup_insert. unfold recordings_job at 1 2. case_decide as Hd.
  - apply app_inv_head in Hd.
    case_decide; [reflexivity | congruence].
  - case_decide as Hd'; [|reflexivity]. exfalso. apply Hd. now rewrite Hd'.
Qed.

Lemma after_writes_flattened_job st (m txt gt_txt n : string) :
  files (after_writes st m txt gt_txt) !! flattened_job n =
    if decide (job_file m = job_file n) then Some txt
    else files st !! flattened_job n.
Proof.
  unfold after_writes. cbn [files].
  rewrite lookup_insert_ne.
  2:{ unfold flattened_gt, flattened_job. intros E.
      apply app_inv_head in E.
      assert (E' : job_file n = gt_file m) by congruence.
      now apply job_file_not_gt_file in E'. }
  rewrite lookup_insert. unfold flattened_job at 1 2. case_decide as Hd.
  - apply app_inv_head in Hd.
    case_decide; [reflexivity | congruence].
  - rewrite lookup_insert_ne by other_folder.
    case_decide as Hd'; [|reflexivity]. exfalso. apply Hd. now rewrite Hd'.
Qed.

(** ** One turn of the loop *)

Lemma job_dict_of_name env cfg f jd :
  job_dict_of env cfg f = Ok jd -> jd_recording_name jd = folder_name f.
Proof.
  unfold job_dict_of. intros E.
  apply rbind_inv_ok in E as (r & _ & E).
  apply rbind_inv_ok in E as (g & _ & E).
  apply rbind_inv_ok in E as (prep & _ & E).
  inversion E. reflexivity.
Qed.

Lemma process_folder_skip env cfg f st :
  has_sorting env f = false -> process_folder env cfg f st = (Ok false, st).
Proof.
  unfold has_sorting, process_folder. intros ->. reflexivity.
Qed.

Lemma process_folder_inv env cfg f st b st' :
  process_folder env cfg f st = (Ok b, st') ->
  b = has_sorting env f /\
  (b = false -> st' = st) /\
  (b = true ->
   exists jd gt_txt,
     job_dict_of env cfg f = Ok jd /\
     snd (json_dump env jd) = None /\
     st' = after_writes st (folder_name f) (fst (json_dump env jd)) gt_txt).
Proof.
  unfold process_folder, has_sorting.
  destruct (is_dir env (sorting_zarr_folder f)) eqn:Hs; simpl negb; cbv iota.
  2:{ intros E. inversion E. repeat split; auto. discriminate. }
  intros E.
  apply bind_inv_ok in E as (recording & st1 & E1 & E).
  apply lift_inv_ok in E1 as [E1 ->].
  apply bind_inv_ok in E as (gt & st1 & E2 & E).
  apply lift_inv_ok in E2 as [E2 ->].
  apply bind_inv_ok in E as (prep & st1 & E3 & E).
  apply lift_inv_ok in E3 as [E3 ->].
  assert (Hjd : job_dict_of env cfg f =
                Ok (make_job_dict cfg (name (parents1 f)) (name (parent f)) prep)).
  { unfold job_dict_of. rewrite E1. simpl. rewrite E2. simpl. now rewrite E3. }
  set (jd := make_job_dict cfg (name (parents1 f)) (name (parent f)) prep) in *.
  unfold open_w_json_dump in E.
  destruct (json_dump env jd) as [txt failure] eqn:Hdump.
  destruct failure as [e|].
  { exfalso. unfold bind, write_text, raise in E. simpl in E. discriminate. }
  apply bind_inv_ok in E as ([] & st1 & E4 & E).
  apply bind_inv_ok in E4 as ([] & st2 & E4 & E4').
  unfold write_text in E4. inversion E4; subst st2; clear E4.
  unfold ret in E4'. inversion E4'; subst st1; clear E4'.
  apply bind_inv_ok in E as ([] & st1 & E5 & E).
  apply bind_inv_ok in E5 as ([] & st2 & E5 & E5').
  unfold write_text in E5. inversion E5; subst st2; clear E5.
  unfold ret in E5'. inversion E5'; subst st1; clear E5'.
  apply bind_inv_ok in E as ([] & st1 & E6 & E).
  unfold dump_to_json in E6.
  apply bind_inv_ok in E6 as (gt_txt & st2 & E6 & E6').
  apply lift_inv_ok in E6 as [E6 ->].
  unfold write_text in E6'. inversion E6'; subst st1; clear E6'.
  unfold ret in E. inversion E; subst b st'; clear E.
  repeat split; [discriminate|].
  intros _. exists jd, gt_txt. rewrite Hdump. simpl.
  repeat split; auto.
Qed.

(** ** The loop *)

Lemma generate_count env cfg folders i st n st' :
  generate env cfg folders i st = (Ok n, st') ->
  n = i + Z.of_nat (length (List.filter (has_sorting env) folders)).
Proof.
  revert i st. induction folders as [|f rest IH]; intros i st E.
  - simpl in E. unfold ret in E. inversion E. simpl. lia.
  - simpl in E. apply bind_inv_ok in E as (b & st1 & Ep & E).
    apply process_folder_inv in Ep as (Hb & _ & _).
    apply IH in E. simpl. rewrite <- Hb.
    destruct b; simpl; lia.
Qed.

Lemma run_inv_ok env args st n st' :
  run env args st = (Ok n, st') ->
  exists cfg selected,
    resolve_config env args = Ok cfg /\
    selected_folders env cfg = Ok selected /\
    generate env cfg selected 0 (after_mkdirs st) = (Ok n, st').
Proof.
  unfold run. intros E.
  apply bind_inv_ok in E as (cfg & st1 & E1 & E).
  apply lift_inv_ok in E1 as [E1 ->].
  apply bind_inv_ok in E as ([] & st1 & E2 & E).
  unfold mkdir in E2. inversion E2; subst st1; clear E2.
  apply bind_inv_ok in E as ([] & st1 & E3 & E).
  unfold mkdir in E3. inversion E3; subst st1; clear E3.
  apply bind_inv_ok in E as (selected & st1 & E4 & E).
  apply lift_inv_ok in E4 as [E4 ->].
  exists cfg, selected. repeat split; auto.
Qed.

Lemma generate_app_inv env cfg pre rest i st n st' :
  generate env cfg (pre ++ rest) i st = (Ok n, st') ->
  exists j st1,
    generate env cfg pre i st = (Ok j, st1) /\
    generate env cfg rest j st1 = (Ok n, st').
Proof.
  revert i st. induction pre as [|f pre IH]; intros i st E.
  - exists i, st. split; [reflexivity | exact E].
  - cbn in E. apply bind_inv_ok in E as (b & st1 & Ep & E).
    apply IH in E as (j & st2 & E1 & E2).
    exists j, st2. split; [|exact E2].
    cbn. now rewrite (bind_ok _ _ _ _ _ Ep).
Qed.

(** A turn keeps the two copies of every name in agreement. *)
Lemma process_folder_copies env cfg f st b st' (m : string) :
  process_folder env cfg f st = (Ok b, st') ->
  copies_agree st m \/ (b = true /\ m = folder_name f) ->
  copies_agree st' m.
Proof.
  intros E H. apply process_folder_inv in E as (_ & Hskip & Hdone).
  destruct b.
  - destruct (Hdone eq_refl) as (jd & gt_txt & _ & _ & ->).
    unfold copies_agree.
    rewrite after_writes_recordings_job, after_writes_flattened_job.
    case_decide as Hd.
    + eexists; eauto.
    + destruct H as [H | [_ ->]]; [exact H | congruence].
  - rewrite (Hskip eq_refl). destruct H as [H | [? _]]; [exact H | discriminate].
Qed.

Lemma generate_copies_kept env cfg folders i st n st' (m : string) :
  generate env cfg folders i st = (Ok n, st') ->
  copies_agree st m -> copies_agree st' m.
Proof.
  revert i st. induction folders as [|f rest IH]; intros i st E H.
  - cbn in E. unfold ret in E. now inversion E; subst.
  - cbn in E. apply bind_inv_ok in E as (b & st1 & Ep & E).
    eapply IH; [exact E|]. eapply process_folder_copies; eauto.
Qed.

Lemma generate_copies_agree env cfg folders i st n st' f :
  generate env cfg folders i st = (Ok n, st') ->
  In f folders -> has_sorting env f = true ->
  copies_agree st' (folder_name f).
Proof.
  revert i st. induction folders as [|g rest IH]; intros i st E Hin Hs.
  - destruct Hin.
  - cbn in E. apply bind_inv_ok in E as (b & st1 & Ep & E).
    destruct Hin as [-> | Hin].
    + eapply generate_copies_kept; [exact E|].
      eapply process_folder_copies; [exact Ep|]. right.
      apply process_folder_inv in Ep as (-> & _). auto.
    + eapply IH; eauto.
Qed.

(** C8: after a completed run, for every folder of the loop that has a
    sorting sibling, the job file in the recordings folder and the one in
    the flattened folder both exist and hold the same text. *)
Theorem job_copies_identical env args cfg selected st n st' f :
  run env args st = (Ok n, st') ->
  resolve_config env args = Ok cfg ->
  selected_folders env cfg = Ok selected ->
  In f selected -> has_sorting env f = true ->
  exists txt,
    files st' !! (recordings_folder ++ [job_file (folder_name f)]) = Some txt /\
    files st' !! (flattened_folder ++ [job_file (folder_name f)]) = Some txt.
Proof.
  intros E Hc Hsel Hin Hs.
  apply run_inv_ok in E as (cfg' & sel' & Hc' & Hsel' & E).
  rewrite Hc in Hc'. inversion Hc'; subst cfg'.
  rewrite Hsel in Hsel'. inversion Hsel'; subst sel'.
  exact (generate_copies_agree env cfg selected 0 _ n st' f E Hin Hs).
Qed.

(** Turns for other names leave the job files of a name alone. *)
Lemma generate_untouched env cfg folders i st n st' (m : string) :
  generate env cfg folders i st = (Ok n, st') ->
  (forall g, In g folders -> has_sorting env g = true -> folder_name g <> m) ->
  files st' !! recordings_job m = files st !! recordings_job m /\
  files st' !! flattened_job m = files st !! flattened_job m.
Proof.
  revert i st. induction folders as [|g rest IH]; intros i st E Hne.
  - cbn in E. unfold ret in E. now inversion E; subst.
  - cbn in E. apply bind_inv_ok in E as (b & st1 & Ep & E).
    apply IH in E as [E1 E2]; [|intros; apply Hne; cbn; auto].
    rewrite E1, E2.
    apply process_folder_inv in Ep as (Hb & Hskip & Hdone).
    destruct b.
    + destruct (Hdone eq_refl) as (jd & gt_txt & _ & _ & ->).
      rewrite after_writes_recordings_job, after_writes_flattened_job.
      case_decide as Hd; [|auto].
      exfalso. apply job_file_inj in Hd.
      apply (Hne g); cbn; auto.
    + now rewrite (Hskip eq_refl).
Qed.

(** The last turn that writes a name decides the text of its job files. *)
Lemma generate_last_writer env cfg pre f post i st n st' :
  generate env cfg (pre ++ f :: post) i st = (Ok n, st') ->
  has_sorting env f = true ->
  (forall g, In g post -> has_sorting env g = true -> folder_name g <> folder_name f) ->
  exists jd,
    job_dict_of env cfg f = Ok jd /\
    files st' !! recordings_job (folder_name f) = Some (fst (json_dump env jd)) /\
    files st' !! flattened_job (folder_name f) = Some (fst (json_dump env jd)).
Proof.
  intros E Hs Hne.
  apply generate_app_inv in E as (j & st1 & _ & E).
  cbn in E. apply bind_inv_ok in E as (b & st2 & Ep & E).
  apply (generate_untouched _ _ _ _ _ _ _ (folder_name f)) in E as [E1 E2]; [|exact Hne].
  apply process_folder_inv in Ep as (Hb & _ & Hdone).
  rewrite Hs in Hb. destruct (Hdone Hb) as (jd & gt_txt & Hjd & _ & ->).
  exists jd. split; [exact Hjd|].
  rewrite E1, E2, after_writes_recordings_job, after_writes_flattened_job.
  case_decide; [auto | congruence].
Qed.

Lemma filter_length_app_two {A} (p : A -> bool) (pre mid post : list A) (a b : A) :
  p a = true -> p b = true ->
  (2 <= length (List.filter p (pre ++ a :: mid ++ b :: post)))%nat.
Proof.
  intros Ha Hb.
  rewrite List.filter_app. cbn. rewrite Ha. rewrite List.filter_app. cbn. rewrite Hb.
  rewrite !length_app. cbn. rewrite length_app. cbn. lia.
Qed.

(** ** Subsampling *)

Lemma omap_lookup_length {A} (l : list A) (idx : list nat) :
  Forall (fun i => (i < length l)%nat) idx ->
  length (omap (fun i => l !! i) idx) = length idx.
Proof.
  induction 1 as [|i idx Hi _ IH]; [reflexivity|].
  cbn. destruct (lookup_lt_is_Some_2 l i Hi) as [x ->]. cbn. now rewrite IH.
Qed.

Lemma omap_lookup_elem {A} (l : list A) (idx : list nat) (x : A) :
  x ∈ omap (fun i => l !! i) idx -> exists i, i ∈ idx /\ l !! i = Some x.
Proof. intros H. apply list_elem_of_omap in H as (i & Hi & Hx). eauto. Qed.

Lemma omap_lookup_NoDup {A} (l : list A) (idx : list nat) :
  NoDup l -> NoDup idx -> NoDup (omap (fun i => l !! i) idx).
Proof.
  intros Hl. induction 1 as [|i idx Hi _ IH]; [constructor|].
  cbn. destruct (l !! i) as [x|] eqn:Hx; [|exact IH].
  constructor; [|exact IH].
  intros Hin. apply omap_lookup_elem in Hin as (j & Hj & Hxj).
  assert (Hij : i = j) by exact (NoDup_lookup l i j x Hl Hx Hxj).
  subst j. contradiction.
Qed.

Lemma filter_length_le {A} (p : A -> bool) (l : list A) :
  (length (List.filter p l) <= length l)%nat.
Proof. induction l as [|a l IH]; cbn; [lia|]. destruct (p a); cbn; lia. Qed.

Lemma filter_all {A} (p : A -> bool) (l : list A) :
  (forall a, a ∈ l -> p a = true) -> List.filter p l = l.
Proof.
  induction l as [|a l IH]; intros H; [reflexivity|].
  cbn. rewrite (H a) by constructor. f_equal. apply IH.
  intros b Hb. apply H. now constructor.
Qed.

Lemma filter_length_lt {A} (p : A -> bool) (l : list A) (a : A) :
  a ∈ l -> p a = false -> (length (List.filter p l) < length l)%nat.
Proof.
  induction l as [|b l IH]; intros Hin Hp; [inversion Hin|].
  cbn. apply elem_of_cons in Hin as [<- | Hin].
  - rewrite Hp. pose proof (filter_length_le p l). lia.
  - specialize (IH Hin Hp). destruct (p b); cbn; lia.
Qed.

(** What the subsampling step returns when the cap is below the number of
    discovered folders. *)
Lemma subsample_capped env (m : Z) (zarr_folders : list path) :
  choice_without_replacement env ->
  0 <= m < Z.of_nat (length zarr_folders) ->
  exists selected,
    subsample env (PyInt m) zarr_folders = Ok selected /\
    selected = omap (fun i => zarr_folders !! i)
                    (choice_indices env (length zarr_folders) (Z.to_nat m)) /\
    Z.of_nat (length selected) = m /\
    (forall f, f ∈ selected -> f ∈ zarr_folders) /\
    (NoDup zarr_folders -> NoDup selected).
Proof.
  intros Hdraw Hm.
  destruct (Hdraw (length zarr_folders) (Z.to_nat m)) as (Hlen & Hnd & Hlt); [lia|].
  eexists. split; [|split; [reflexivity|]].
  - unfold subsample. cbn [subsample_guard rbind].
    replace (m <? Z.of_nat (length zarr_folders)) with true
      by (symmetry; apply Z.ltb_lt; lia).
    unfold rng_choice.
    replace (m <? 0) with false by (symmetry; apply Z.ltb_ge; lia).
    reflexivity.
  - repeat split.
    + rewrite omap_lookup_length by exact Hlt. rewrite Hlen. lia.
    + intros f Hf. apply omap_lookup_elem in Hf as (i & _ & Hi).
      eapply list_elem_of_lookup_2; eauto.
    + intros Hl. now apply omap_lookup_NoDup.
Qed.

(** A drawn position that holds a folder without sorting costs a job. *)
Lemma subsample_draws_unpaired env (m : Z) (zarr_folders selected : list path)
    (i : nat) (f : path) :
  choice_without_replacement env ->
  0 <= m < Z.of_nat (length zarr_folders) ->
  subsample env (PyInt m) zarr_folders = Ok selected ->
  i ∈ choice_indices env (length zarr_folders) (Z.to_nat m) ->
  zarr_folders !! i = Some f ->
  has_sorting env f = false ->
  Z.of_nat (length (List.filter (has_sorting env) selected)) < m.
Proof.
  intros Hdraw Hm Hsel Hi Hf Hs.
  destruct (subsample_capped env m zarr_folders Hdraw Hm)
    as (sel' & Hsel' & Hshape & Hlen & _).
  rewrite Hsel in Hsel'. injection Hsel' as Heq. rewrite <- Heq in Hshape, Hlen.
  assert (Hin : f ∈ selected).
  { rewrite Hshape. apply list_elem_of_omap. eauto. }
  pose proof (filter_length_lt (has_sorting env) selected f Hin Hs). lia.
Qed.

Lemma NoDup_map_job_paths (names : list string) :
  NoDup names -> NoDup (map recordings_job names).
Proof.
  induction 1 as [|a l Ha _ IH]; cbn [map]; constructor; [|exact IH].
  intros Hin. apply list_elem_of_In, in_map_iff in Hin as (b & Hb & Hin).
  unfold recordings_job in Hb. apply app_inv_head in Hb.
  assert (Hab : job_file b = job_file a) by congruence.
  apply job_file_inj in Hab. subst b. apply Ha. now apply list_elem_of_In.
Qed.


End Proofs.

(** ** Derived names *)

Lemma has_separator_tail (c : ascii) (s : string) :
  has_separator (String c s) = false -> has_separator s = false.
Proof.
  cbn. destruct s as [|c' s]; [reflexivity|].
  intros H. apply orb_false_iff in H as [_ H]. exact H.
Qed.

Lemma ends_with_underscore_tail (c : ascii) (s : string) :
  ends_with_underscore (String c s) = false -> ends_with_underscore s = false.
Proof. destruct s as [|c' s]; [reflexivity|]. cbn. auto. Qed.

(** A session name that is a proper prefix of the joined name up to the
    separator either contains the separator or ends with an underscore. *)
Lemma separator_after_nothing (s c1 c2 : string) :
  "__" +:+ c1 = s +:+ "__" +:+ c2 ->
  has_separator s = false -> ends_with_underscore s = false ->
  s = ""%string.
Proof.
  destruct s as [|a s]; [reflexivity|].
  rewrite !append_cons. intros E Hsep Hend. exfalso.
  injection E as Ea E. subst a.
  destruct s as [|b s].
  - cbn in Hend. discriminate.
  - rewrite append_cons in E. injection E as Eb _. subst b.
    cbn in Hsep. discriminate.
Qed.

Lemma derived_name_inj (s1 c1 s2 c2 : string) :
  has_separator s1 = false -> has_separator s2 = false ->
  ends_with_underscore s1 = false -> ends_with_underscore s2 = false ->
  derived_name s1 c1 = derived_name s2 c2 ->
  s1 = s2 /\ c1 = c2.
Proof.
  unfold derived_name. revert s2.
  induction s1 as [|a s1 IH]; intros s2 H1 H2 E1 E2 E.
  - change ("" +:+ "__" +:+ c1) with ("__" +:+ c1) in E.
    pose proof (separator_after_nothing s2 c1 c2 E H2 E2) as ->.
    split; [reflexivity|].
    change ("" +:+ "__" +:+ c2) with ("__" +:+ c2) in E.
    now apply String.app_inj in E.
  - destruct s2 as [|b s2].
    + change ("" +:+ "__" +:+ c2) with ("__" +:+ c2) in E. symmetry in E.
      pose proof (separator_after_nothing (String a s1) c2 c1 E H1 E1). discriminate.
    + rewrite !append_cons in E. injection E as Eab E. subst b.
      apply has_separator_tail in H1, H2.
      apply ends_with_underscore_tail in E1, E2.
      destruct (IH s2 H1 H2 E1 E2 E) as [-> ->]. auto.
Qed.

(** C9, as the script has it: when neither session name contains ["__"] nor
    ends with an underscore, two pairs with distinct (session name, case
    name) get distinct derived names. *)
Theorem derived_name_injective (s1 c1 s2 c2 : string) :
  has_separator s1 = false -> has_separator s2 = false ->
  ends_with_underscore s1 = false -> ends_with_underscore s2 = false ->
  (s1, c1) <> (s2, c2) ->
  derived_name s1 c1 <> derived_name s2 c2.
Proof.
  intros H1 H2 E1 E2 Hne E. apply Hne.
  destruct (derived_name_inj s1 c1 s2 c2 H1 H2 E1 E2 E) as [-> ->]. reflexivity.
Qed.

Lemma derived_name_injective_witness :
  derived_name "s1" "c1" <> derived_name "s1" "c2".
Proof.
  apply derived_name_injective; try reflexivity. intros E. discriminate E.
Defined.

(** Components free of ["__"] can still collide: the underscore that ends
    a session name merges with the separator. *)
Lemma derived_name_collision :
  ("a_", "b")%string <> ("a", "_b")%string /\
  has_separator "a_" = false /\ has_separator "b" = false /\
  has_separator "a" = false /\ has_separator "_b" = false /\
  derived_name "a_" "b" = derived_name "a" "_b" /\
  folder_name [".."; "data"; "a_"; "b"; "recording.zarr"]%string =
  folder_name [".."; "data"; "a"; "_b"; "recording.zarr"]%string.
Proof. repeat split; try reflexivity. intros E. discriminate E. Qed.

(** * The model on concrete inputs *)

(** ** Configuration *)

(** C2: with [--params '{"debug": true}'] the run raises the [TypeError] of
    [float(None)] and leaves the results folder untouched; the duration is
    not defaulted to 30. *)
Theorem blob_without_debug_duration_raises :
  resolve_config env_two_cases (params_args blob_debug_only) =
    Raise (TypeError "float() argument must be a string or a real number, not 'NoneType'") /\
  run env_two_cases (params_args blob_debug_only) empty_results =
    (Raise (TypeError "float() argument must be a string or a real number, not 'NoneType'"),
     empty_results).
Proof. split; vm_compute; reflexivity. Qed.

(** The command line, by contrast, defaults the duration to 30. *)
Example cli_default_debug_duration :
  resolve_config env_two_cases args_default =
    Ok {| DEBUG := PyBool false; DEBUG_DURATION := 30%Q; MAX_RECORDINGS := PyNone |}.
Proof. reflexivity. Qed.

(** C3: with [--params '{"debug_duration": 30, "max_recordings": -1}'] the
    cap stays [-1], the subsampling guard holds for every list of folders,
    and the run stops in [rng.choice]; with [--max-recordings -1] the cap is
    [None] and every discovered pair is processed. *)
Theorem blob_minus_one_is_not_unlimited :
  resolve_config env_two_cases (params_args blob_minus_one) =
    Ok {| DEBUG := PyBool false; DEBUG_DURATION := 30%Q; MAX_RECORDINGS := PyInt (-1) |} /\
  (forall zarr_folders : list path,
     subsample_guard (F := Q) (PyInt (-1)) zarr_folders = Ok true /\
     subsample env_two_cases (PyInt (-1)) zarr_folders =
       Raise (ValueError "negative dimensions are not allowed")) /\
  fst (run env_two_cases (params_args blob_minus_one) empty_results) =
    Raise (ValueError "negative dimensions are not allowed") /\
  resolve_config env_two_cases args_cli_minus_one =
    Ok {| DEBUG := PyBool false; DEBUG_DURATION := 30%Q; MAX_RECORDINGS := PyNone |} /\
  fst (run env_two_cases args_cli_minus_one empty_results) = Ok 1.
Proof.
  split; [reflexivity|]. split.
  - intros zarr_folders. split.
    + apply subsample_guard_negative. lia.
    + apply subsample_negative_raises. lia.
  - repeat split; vm_compute; reflexivity.
Qed.

Lemma invalid_params_abort_before_discovery_witness :
  run env_two_cases (params_args "not json") empty_results =
    (Raise (ValueError
              "Invalid parameters: not json is not a valid JSON string or file path"),
     empty_results).
Proof.
  exact (proj2 (invalid_params_abort_before_discovery
                  env_two_cases (params_args "not json") "not json" empty_results
                  eq_refl eq_refl eq_refl)).
Defined.

(** ** Debug truncation *)

Lemma debug_truncation_endpoints_agree_witness :
  exists prep,
    prepare (cfg_debug 30) fast_recording sample_sorting = Ok prep /\
    p_recording_end prep = Some 900000 /\
    p_sorting_end prep = Some 900000.
Proof.
  eexists. split.
  - apply (debug_truncation_endpoints_agree
             (cfg_debug 30) fast_recording sample_sorting); [reflexivity|].
    exists 900000. split; [reflexivity|]. split; [reflexivity|]. reflexivity.
  - split; reflexivity.
Defined.

(** The end-to-end examples of the specification: 120 s at 30 kHz. *)
Example duration_without_debug :
  exists prep,
    prepare (cfg_capped false 3) fast_recording sample_sorting = Ok prep /\
    (p_duration prep == 120)%Q.
Proof. eexists. split; [reflexivity|]. vm_compute. reflexivity. Qed.

Example duration_with_debug_30 :
  exists prep,
    prepare (cfg_debug 30) fast_recording sample_sorting = Ok prep /\
    (p_duration prep == 30)%Q /\
    p_recording prep = FrameSliceRecording fast_recording 0 900000 /\
    p_gt_sorting prep = FrameSliceSorting sample_sorting 0 900000.
Proof. eexists. split; [reflexivity|]. repeat split. Qed.



(** ** Subsampling *)

Lemma sample_env_choice (tree : node) (draw : nat -> nat -> list nat) (n k : nat) :
  choice_indices (sample_env tree draw) n k = draw n k.
Proof. reflexivity. Qed.

Lemma first_positions_without_replacement (tree : node) :
  choice_without_replacement (sample_env tree first_positions).
Proof.
  intros n k Hk. cbn. unfold first_positions. repeat split.
  - apply length_seq.
  - apply NoDup_seq.
  - apply Forall_forall. intros i Hi. apply list_elem_of_In, in_seq in Hi. lia.
Qed.

Lemma last_positions_without_replacement (tree : node) :
  choice_without_replacement (sample_env tree last_positions).
Proof.
  intros n k Hk. cbn. unfold last_positions. repeat split.
  - apply length_seq.
  - apply NoDup_seq.
  - apply Forall_forall. intros i Hi. apply list_elem_of_In, in_seq in Hi. lia.
Qed.

(** Ten paired cases and one case without sorting, the unpaired one listed
    at position [i]. *)
Lemma tree_unpaired_at_facts (draw : nat -> nat -> list nat) (i : nat) :
  (i < 11)%nat ->
  exists f,
    find_zarr_folders (sample_env (tree_unpaired_at i) draw) !! i = Some f /\
    has_sorting (sample_env (tree_unpaired_at i) draw) f = false /\
    length (find_zarr_folders (sample_env (tree_unpaired_at i) draw)) = 11%nat /\
    length (List.filter (has_sorting (sample_env (tree_unpaired_at i) draw))
              (find_zarr_folders (sample_env (tree_unpaired_at i) draw))) = 10%nat.
Proof.
  intros Hi.
  do 11 (destruct i as [|i]; [eexists; repeat split; vm_compute; reflexivity|]).
  lia.
Qed.

(** Whatever is drawn, listing the unpaired folder at a drawn position
    costs a job. *)
Lemma every_draw_can_miss_a_pair (draw : nat -> nat -> list nat) :
  choice_without_replacement (sample_env File draw) ->
  exists (i : nat) (selected : list path),
    (i < 11)%nat /\
    selected_folders (sample_env (tree_unpaired_at i) draw) (cfg_capped false 3)
      = Ok selected /\
    Z.of_nat (length (List.filter (has_sorting (sample_env (tree_unpaired_at i) draw))
                        selected)) < 3.
Proof.
  intros Hdraw.
  destruct (Hdraw 11%nat 3%nat) as (Hlen & _ & Hlt); [lia|].
  rewrite sample_env_choice in Hlen, Hlt.
  destruct (draw 11%nat 3%nat) as [|i rest] eqn:Hd; [discriminate|].
  apply Forall_cons in Hlt as [Hi _].
  destruct (tree_unpaired_at_facts draw i Hi) as (f & Hf & Hs & Hn & Hten).
  assert (Hdraw' : choice_without_replacement (sample_env (tree_unpaired_at i) draw)).
  { intros n k Hk. exact (Hdraw n k Hk). }
  assert (Hm : 0 <= 3 < Z.of_nat (length (find_zarr_folders
                                         (sample_env (tree_unpaired_at i) draw)))).
  { rewrite Hn. lia. }
  destruct (subsample_capped _ 3 _ Hdraw' Hm) as (selected & Hsel & _).
  exists i, selected. split; [exact Hi|]. split; [exact Hsel|].
  apply (subsample_draws_unpaired _ 3 _ selected i f Hdraw' Hm Hsel); [|exact Hf|exact Hs].
  rewrite Hn, sample_env_choice. change (Z.to_nat 3) with 3%nat.
  rewrite Hd. constructor.
Qed.

(** Ten paired cases, cap 3: three jobs, three job files in each folder. *)
Example ten_pairs_cap_three :
  fst (run env_ten args_cap3 empty_results) = Ok 3 /\
  files_in recordings_folder (snd (run env_ten args_cap3 empty_results)) = 3%nat /\
  files_in flattened_folder (snd (run env_ten args_cap3 empty_results)) = 6%nat.
Proof. repeat split; vm_compute; reflexivity. Qed.


(** The two runs above do draw alike with seed 0; generators made without
    a seed would follow the entropy of each run and draw differently. *)
Example unseeded_generators_differ :
  os_entropy env_first_run <> os_entropy env_second_run /\
  generator_choice env_first_run (default_rng env_first_run (Some 0)) 10 3 =
  generator_choice env_second_run (default_rng env_second_run (Some 0)) 10 3 /\
  generator_choice env_first_run (default_rng env_first_run None) 10 3 <>
  generator_choice env_second_run (default_rng env_second_run None) 10 3.
Proof. repeat split; vm_compute; discriminate. Qed.

(** The draw is by position: with any draw without replacement, the same
    two folders listed in the other order give the other folder. *)
Lemma selection_follows_listing_order (env : Env Q) (a b : path) :
  choice_without_replacement env -> a <> b ->
  rng_choice env [a; b] 1 <> rng_choice env [b; a] 1.
Proof.
  intros Hdraw Hab. destruct (Hdraw 2%nat 1%nat) as (Hlen & _ & Hlt); [lia|].
  unfold rng_choice. cbn [Z.ltb Z.compare length]. change (Z.to_nat 1) with 1%nat.
  destruct (choice_indices env 2 1) as [|i [|j rest]]; try discriminate.
  apply Forall_cons in Hlt as [Hi _].
  destruct i as [|[|i]]; cbn; [congruence | congruence | lia].
Qed.

(** ** Output files *)

(** The end-to-end example: [s1/c1] is paired, [s1/c2] is not. *)
Example one_pair_one_job :
  fst (run env_two_cases args_default empty_results) = Ok 1 /\
  map fst (map_to_list (files (snd (run env_two_cases args_default empty_results)))) ≡ₚ
    [[".."; "results"; "recordings"; "job_s1__c1.json"];
     [".."; "results"; "flattened"; "job_s1__c1.json"];
     [".."; "results"; "flattened"; "gt_s1__c1.json"]]%string.
Proof.
  split; [vm_compute; reflexivity|].
  apply (bool_decide_unpack _). vm_compute. exact I.
Qed.

Lemma job_copies_identical_witness :
  exists txt,
    files (snd (run env_two_cases args_debug empty_results))
      !! (recordings_folder ++ [job_file (folder_name sample_folder)]) = Some txt /\
    files (snd (run env_two_cases args_debug empty_results))
      !! (flattened_folder ++ [job_file (folder_name sample_folder)]) = Some txt.
Proof.
  apply (job_copies_identical env_two_cases args_debug (cfg_debug 30)
           (find_zarr_folders env_two_cases) empty_results 1).
  - vm_compute. reflexivity.
  - reflexivity.
  - reflexivity.
  - vm_compute. left. reflexivity.
  - reflexivity.
Defined.

(** * Further properties of the script *)

Section Loop.
Context {F : Type} `{!FloatOps F}.

Implicit Types (env : Env F) (args : Args F) (cfg : Config F) (st : State).

(** ** The loop as a fold of writes *)

Lemma process_folder_of_texts env cfg f st :
  match turn_texts env cfg f with
  | Ok None => process_folder env cfg f st = (Ok false, st)
  | Ok (Some (txt, gt_txt)) =>
      process_folder env cfg f st =
        (Ok true, after_writes st (folder_name f) txt gt_txt)
  | Raise e => fst (process_folder env cfg f st) = Raise e
  end.
Proof.
  unfold turn_texts, process_folder, has_sorting.
  destruct (is_dir env (sorting_zarr_folder f)); cbn [negb]; [|reflexivity].
  destruct (si_load_recording env f) as [recording|e]; [|reflexivity].
  cbn [rbind]. rewrite (bind_ok _ _ st recording st eq_refl).
  destruct (si_load_sorting env (sorting_zarr_folder f)) as [gt|e]; [|reflexivity].
  cbn [rbind]. rewrite (bind_ok _ _ st gt st eq_refl).
  destruct (prepare cfg recording gt) as [prep|e]; [|reflexivity].
  cbn [rbind]. rewrite (bind_ok _ _ st prep st eq_refl).
  cbv zeta. unfold open_w_json_dump.
  destruct (json_dump env (make_job_dict cfg (name (parents1 f)) (name (parent f)) prep))
    as [txt [e|]]; cbn [fst snd]; [reflexivity|].
  destruct (sorting_dumps env (p_gt_sorting prep)) as [gt_txt|e] eqn:Hg;
    cbn [rbind]; unfold bind, write_text, ret, dump_to_json, bind, lift;
    rewrite ?Hg; reflexivity.
Qed.

Lemma generate_of_texts env cfg folders ws i st :
  loop_texts env cfg folders = Ok ws ->
  generate env cfg folders i st =
    (Ok (i + Z.of_nat (length ws)), apply_writes ws st).
Proof.
  revert ws i st. induction folders as [|f rest IH]; intros ws i st E.
  - cbn in E. injection E as <-. cbn. unfold ret. f_equal. f_equal. lia.
  - cbn [loop_texts] in E.
    apply rbind_inv_ok in E as (w & Hw & E).
    apply rbind_inv_ok in E as (ws' & Hws & E). injection E as <-.
    pose proof (process_folder_of_texts env cfg f st) as Hp. rewrite Hw in Hp.
    cbn [generate]. destruct w as [[txt gt_txt]|].
    + rewrite (bind_ok _ _ _ _ _ Hp), (IH ws' _ _ Hws). cbn [apply_writes length].
      f_equal. f_equal. lia.
    + rewrite (bind_ok _ _ _ _ _ Hp), (IH ws' _ _ Hws). reflexivity.
Qed.

Lemma texts_of_generate env cfg folders i st n st' :
  generate env cfg folders i st = (Ok n, st') ->
  exists ws, loop_texts env cfg folders = Ok ws.
Proof.
  revert i st. induction folders as [|f rest IH]; intros i st E.
  - exists []. reflexivity.
  - cbn [generate] in E. apply bind_inv_ok in E as (b & st1 & Ep & E).
    apply IH in E as (ws & Hws).
    pose proof (process_folder_of_texts env cfg f st) as Hp.
    cbn [loop_texts]. rewrite Hws.
    destruct (turn_texts env cfg f) as [w|e].
    + eexists. reflexivity.
    + rewrite Ep in Hp. discriminate.
Qed.

Lemma run_of_texts env args cfg selected ws st :
  resolve_config env args = Ok cfg ->
  selected_folders env cfg = Ok selected ->
  loop_texts env cfg selected = Ok ws ->
  run env args st = (Ok (Z.of_nat (length ws)), apply_writes ws (after_mkdirs st)).
Proof.
  intros Hc Hsel Hws. unfold run.
  rewrite (bind_ok _ _ st cfg st) by (unfold lift; now rewrite Hc).
  rewrite (bind_ok (mkdir recordings_folder) _ st tt _ eq_refl).
  rewrite (bind_ok (mkdir flattened_folder) _ _ tt _ eq_refl).
  unfold selected_folders in Hsel.
  rewrite (bind_ok _ _ _ selected _) by (unfold lift; now rewrite Hsel).
  rewrite (generate_of_texts env cfg selected ws 0 _ Hws). reflexivity.
Qed.

Lemma texts_of_run env args st (n : Z) st' :
  run env args st = (Ok n, st') ->
  exists cfg selected ws,
    resolve_config env args = Ok cfg /\
    selected_folders env cfg = Ok selected /\
    loop_texts env cfg selected = Ok ws /\
    n = Z.of_nat (length ws) /\
    st' = apply_writes ws (after_mkdirs st).
Proof.
  intros E. destruct (run_inv_ok env args st n st' E) as (cfg & sel & Hc & Hsel & Hg).
  destruct (texts_of_generate env cfg sel 0 _ n st' Hg) as (ws & Hws).
  exists cfg, sel, ws. repeat split; try assumption.
  - rewrite (generate_of_texts env cfg sel ws 0 _ Hws) in Hg.
    injection Hg as Hn _. lia.
  - rewrite (generate_of_texts env cfg sel ws 0 _ Hws) in Hg.
    now injection Hg as _ Hst.
Qed.


(** Which names the loop writes: those of the folders that pass the
    sibling check, in order. *)
Lemma loop_texts_names env cfg folders ws :
  loop_texts env cfg folders = Ok ws ->
  map (fun w => fst (fst w)) ws =
    map folder_name (List.filter (has_sorting env) folders).
Proof.
  revert ws. induction folders as [|f rest IH]; intros ws E.
  - cbn in E. now injection E as <-.
  - cbn [loop_texts] in E.
    apply rbind_inv_ok in E as (w & Hw & E).
    apply rbind_inv_ok in E as (ws' & Hws & E). injection E as <-.
    specialize (IH ws' Hws). cbn [List.filter].
    unfold turn_texts in Hw. destruct (has_sorting env f); cbn [negb] in Hw.
    + destruct w as [[txt gt_txt]|].
      * cbn. now rewrite IH.
      * exfalso.
        apply rbind_inv_ok in Hw as (r & _ & Hw).
        apply rbind_inv_ok in Hw as (g & _ & Hw).
        apply rbind_inv_ok in Hw as (prep & _ & Hw).
        destruct (snd (json_dump env _)); [discriminate|].
        apply rbind_inv_ok in Hw as (gt_txt & _ & Hw). discriminate.
    + injection Hw as <-. exact IH.
Qed.

End Loop.

(** ** Writes and the files they leave *)

Lemma gt_file_inj (n m : string) : gt_file n = gt_file m -> n = m.
Proof.
  unfold gt_file. intros E. apply String.app_inj in E.
  now apply append_inj_suffix in E.
Qed.

Lemma after_writes_lookup st (m txt gt_txt : string) (p : path) :
  files (after_writes st m txt gt_txt) !! p =
    if decide (p = flattened_gt m) then Some gt_txt
    else if decide (p = flattened_job m) then Some txt
    else if decide (p = recordings_job m) then Some txt
    else files st !! p.
Proof.
  unfold after_writes. cbn [files]. rewrite !lookup_insert.
  repeat case_decide; congruence.
Qed.

Lemma after_writes_other st (m txt gt_txt : string) (p : path) :
  ~ In p (written_paths m) ->
  files (after_writes st m txt gt_txt) !! p = files st !! p.
Proof.
  intros Hp. rewrite after_writes_lookup. unfold written_paths in Hp. cbn in Hp.
  repeat case_decide; try reflexivity; exfalso; apply Hp; auto.
Qed.

Lemma apply_writes_dirs ws st : dirs (apply_writes ws st) = dirs st.
Proof.
  revert st. induction ws as [|[[m txt] gt_txt] ws IH]; intros st; [reflexivity|].
  cbn [apply_writes]. now rewrite IH.
Qed.

Lemma apply_writes_other ws st (p : path) :
  (forall w, In w ws -> ~ In p (written_paths (fst (fst w)))) ->
  files (apply_writes ws st) !! p = files st !! p.
Proof.
  revert st. induction ws as [|[[m txt] gt_txt] ws IH]; intros st H; [reflexivity|].
  cbn [apply_writes]. rewrite IH by (intros w Hw; apply H; now right).
  apply after_writes_other. apply (H (m, txt, gt_txt)). now left.
Qed.

(** Applied to two states, a list of writes either gives a path the same
    content in both, or leaves it alone in both. *)
Lemma apply_writes_written_or_kept ws st1 st2 (p : path) :
  files (apply_writes ws st1) !! p = files (apply_writes ws st2) !! p \/
  (files (apply_writes ws st1) !! p = files st1 !! p /\
   files (apply_writes ws st2) !! p = files st2 !! p).
Proof.
  revert st1 st2. induction ws as [|[[m txt] gt_txt] ws IH]; intros st1 st2.
  - right. split; reflexivity.
  - cbn [apply_writes].
    destruct (IH (after_writes st1 m txt gt_txt) (after_writes st2 m txt gt_txt))
      as [Hw | [H1 H2]]; [left; exact Hw|].
    rewrite H1, H2, !after_writes_lookup.
    repeat case_decide; auto.
Qed.

Lemma apply_writes_twice ws st :
  files (apply_writes ws (apply_writes ws st)) = files (apply_writes ws st).
Proof.
  apply map_eq. intros p.
  destruct (apply_writes_written_or_kept ws (apply_writes ws st) st p) as [H | [H _]];
    exact H.
Qed.

Lemma apply_writes_files_ext ws st1 st2 :
  files st1 = files st2 -> files (apply_writes ws st1) = files (apply_writes ws st2).
Proof.
  revert st1 st2. induction ws as [|[[m txt] gt_txt] ws IH]; intros st1 st2 E; [exact E|].
  cbn [apply_writes]. apply IH. unfold after_writes. cbn [files]. now rewrite E.
Qed.

Lemma state_eq (st1 st2 : State) :
  files st1 = files st2 -> dirs st1 = dirs st2 -> st1 = st2.
Proof. destruct st1, st2. cbn. now intros -> ->. Qed.

Lemma after_mkdirs_twice_dirs st :
  dirs (after_mkdirs (after_mkdirs st)) = dirs (after_mkdirs st).
Proof.
  unfold after_mkdirs. cbn [dirs]. apply set_eq. intros x.
  rewrite !elem_of_union. tauto.
Qed.

Ltac across_folders :=
  unfold recordings_job, flattened_job, flattened_gt,
         recordings_folder, flattened_folder, results_folder;
  cbn [app]; let E := fresh in intros E; inversion E.

(** The paths written for two names meet only when the names are equal. *)
Lemma written_paths_meet (n m : string) (p : path) :
  In p (written_paths n) -> In p (written_paths m) -> n = m.
Proof.
  unfold written_paths. cbn [In].
  intros [<-|[<-|[<-|[]]]] [E|[E|[E|[]]]].
  - unfold recordings_job in E. apply app_inv_head in E.
    assert (E' : job_file m = job_file n) by congruence.
    symmetry. now apply job_file_inj.
  - exfalso. revert E. across_folders.
  - exfalso. revert E. across_folders.
  - exfalso. revert E. across_folders.
  - unfold flattened_job in E. apply app_inv_head in E.
    assert (E' : job_file m = job_file n) by congruence.
    symmetry. now apply job_file_inj.
  - exfalso. unfold flattened_gt, flattened_job in E. apply app_inv_head in E.
    assert (E' : job_file n = gt_file m) by congruence.
    now apply job_file_not_gt_file in E'.
  - exfalso. revert E. across_folders.
  - exfalso. unfold flattened_gt, flattened_job in E. apply app_inv_head in E.
    assert (E' : job_file m = gt_file n) by congruence.
    now apply job_file_not_gt_file in E'.
  - unfold flattened_gt in E. apply app_inv_head in E.
    assert (E' : gt_file m = gt_file n) by congruence.
    symmetry. now apply gt_file_inj.
Qed.

(** The last write of a name decides its three files. *)
Lemma apply_writes_last ws1 ws2 st (m txt gt_txt : string) :
  (forall w, In w ws2 -> fst (fst w) <> m) ->
  files (apply_writes (ws1 ++ (m, txt, gt_txt) :: ws2) st) !! recordings_job m = Some txt /\
  files (apply_writes (ws1 ++ (m, txt, gt_txt) :: ws2) st) !! flattened_job m = Some txt /\
  files (apply_writes (ws1 ++ (m, txt, gt_txt) :: ws2) st) !! flattened_gt m = Some gt_txt.
Proof.
  intros Hne. revert st. induction ws1 as [|[[m1 t1] g1] ws1 IH]; intros st.
  - cbn [app apply_writes].
    assert (Hother : forall p, In p (written_paths m) ->
              files (apply_writes ws2 (after_writes st m txt gt_txt)) !! p =
              files (after_writes st m txt gt_txt) !! p).
    { intros p Hp. apply apply_writes_other. intros w Hw Hin.
      apply (Hne w Hw). exact (written_paths_meet _ _ p Hin Hp). }
    rewrite !Hother by (unfold written_paths; cbn; auto).
    rewrite after_writes_recordings_job, after_writes_flattened_job, after_writes_lookup.
    repeat case_decide; try congruence. auto.
  - cbn [app apply_writes]. apply IH.
Qed.

Lemma apply_writes_keeps_files ws st (p : path) :
  is_Some (files st !! p) -> is_Some (files (apply_writes ws st) !! p).
Proof.
  revert st. induction ws as [|[[m txt] gt_txt] ws IH]; intros st H; [exact H|].
  cbn [apply_writes]. apply IH. rewrite after_writes_lookup.
  repeat case_decide; eauto.
Qed.

Lemma apply_writes_written ws st (w : string * string * string) :
  In w ws ->
  is_Some (files (apply_writes ws st) !! recordings_job (fst (fst w))) /\
  is_Some (files (apply_writes ws st) !! flattened_job (fst (fst w))) /\
  is_Some (files (apply_writes ws st) !! flattened_gt (fst (fst w))).
Proof.
  revert st. induction ws as [|[[m txt] gt_txt] ws IH]; intros st Hin; [destruct Hin|].
  cbn [apply_writes]. destruct Hin as [<- | Hin]; [|now apply IH].
  cbn [fst]. repeat split; apply apply_writes_keeps_files;
    rewrite after_writes_lookup; repeat case_decide; eauto; congruence.
Qed.

Section RunFacts.
Context {F : Type} `{!FloatOps F}.

Implicit Types (env : Env F) (args : Args F) (cfg : Config F) (st : State).

(** ** Running twice *)

(** X2: running the script again on the results folder a completed run
    left behind completes with the same count and leaves the folder exactly
    as it was: every file is overwritten with the same text. *)
Theorem rerun_leaves_results_unchanged env args st (n : Z) st' :
  run env args st = (Ok n, st') ->
  run env args st' = (Ok n, st').
Proof.
  intros E. apply texts_of_run in E
    as (cfg & sel & ws & Hc & Hsel & Hws & -> & ->).
  rewrite (run_of_texts env args cfg sel ws _ Hc Hsel Hws). f_equal.
  apply state_eq.
  - rewrite (apply_writes_files_ext ws (after_mkdirs (apply_writes ws (after_mkdirs st)))
               (apply_writes ws (after_mkdirs st))) by reflexivity.
    apply apply_writes_twice.
  - rewrite !apply_writes_dirs.
    change (dirs (after_mkdirs (apply_writes ws (after_mkdirs st))))
      with ({[flattened_folder; parent flattened_folder]} ∪
            ({[recordings_folder; parent recordings_folder]} ∪
             dirs (apply_writes ws (after_mkdirs st)))).
    rewrite apply_writes_dirs. apply after_mkdirs_twice_dirs.
Qed.

(** ** What a run leaves alone *)

(** X3: a completed run changes no file other than the two job files and
    the sorting file of the folders it processed: every other path of the
    results folder holds what it held before (or is still absent). *)
Theorem run_touches_only_written_paths env args cfg selected st (n : Z) st' (p : path) :
  run env args st = (Ok n, st') ->
  resolve_config env args = Ok cfg ->
  selected_folders env cfg = Ok selected ->
  (forall f, In f selected -> has_sorting env f = true ->
             ~ In p (written_paths (folder_name f))) ->
  files st' !! p = files st !! p.
Proof.
  intros E Hc Hsel Hp. apply texts_of_run in E
    as (cfg' & sel' & ws & Hc' & Hsel' & Hws & -> & ->).
  rewrite Hc in Hc'. injection Hc' as <-.
  rewrite Hsel in Hsel'. injection Hsel' as <-.
  rewrite apply_writes_other; [reflexivity|].
  intros w Hw. pose proof (loop_texts_names env cfg selected ws Hws) as Hnames.
  assert (Hin : In (fst (fst w)) (map folder_name (List.filter (has_sorting env) selected))).
  { rewrite <- Hnames. now apply (in_map (fun w => fst (fst w))). }
  apply in_map_iff in Hin as (f & <- & Hf). apply List.filter_In in Hf as [Hf Hs].
  now apply Hp.
Qed.

(** ** Ground truth *)

Lemma loop_texts_app_inv env cfg pre post ws :
  loop_texts env cfg (pre ++ post) = Ok ws ->
  exists ws1 ws2,
    loop_texts env cfg pre = Ok ws1 /\ loop_texts env cfg post = Ok ws2 /\
    ws = ws1 ++ ws2.
Proof.
  revert ws. induction pre as [|f pre IH]; intros ws E.
  - exists [], ws. auto.
  - cbn [app loop_texts] in E.
    apply rbind_inv_ok in E as (w & Hw & E).
    apply rbind_inv_ok in E as (ws' & Hws & E). injection E as <-.
    destruct (IH ws' Hws) as (ws1 & ws2 & H1 & H2 & ->).
    cbn [loop_texts]. rewrite Hw, H1. cbn [rbind].
    destruct w as [[txt gt_txt]|]; eexists _, ws2; repeat split; eauto.
Qed.

Lemma turn_texts_paired env cfg f w :
  turn_texts env cfg f = Ok w ->
  has_sorting env f = true ->
  exists recording gt_sorting prep gt_txt,
    si_load_recording env f = Ok recording /\
    si_load_sorting env (sorting_zarr_folder f) = Ok gt_sorting /\
    prepare cfg recording gt_sorting = Ok prep /\
    snd (json_dump env (make_job_dict cfg (name (parents1 f)) (name (parent f)) prep))
      = None /\
    sorting_dumps env (p_gt_sorting prep) = Ok gt_txt /\
    w = Some (fst (json_dump env
                     (make_job_dict cfg (name (parents1 f)) (name (parent f)) prep)),
              gt_txt).
Proof.
  unfold turn_texts. intros Hw Hs. rewrite Hs in Hw. cbn [negb] in Hw.
  apply rbind_inv_ok in Hw as (recording & Hr & Hw).
  apply rbind_inv_ok in Hw as (gt & Hg & Hw).
  apply rbind_inv_ok in Hw as (prep & Hp & Hw).
  cbv zeta in Hw.
  destruct (snd (json_dump env _)) eqn:Hd; [discriminate|].
  apply rbind_inv_ok in Hw as (gt_txt & Hdump & Hw). injection Hw as <-.
  exists recording, gt, prep, gt_txt. repeat split; assumption.
Qed.

(** X4: after a completed run every folder that passed the sibling check
    has its sorting file in the flattened folder; for the last folder
    written under a name, that file holds the dump of the sorting that was
    loaded from its sibling and cut by the debug branch like the recording. *)
Theorem ground_truth_written env args cfg pre f post st (n : Z) st' :
  run env args st = (Ok n, st') ->
  resolve_config env args = Ok cfg ->
  selected_folders env cfg = Ok (pre ++ f :: post) ->
  has_sorting env f = true ->
  is_Some (files st' !! (flattened_folder ++ [gt_file (folder_name f)])) /\
  ((forall g, In g post -> has_sorting env g = true -> folder_name g <> folder_name f) ->
   exists recording gt_sorting prep gt_txt,
     si_load_recording env f = Ok recording /\
     si_load_sorting env (sorting_zarr_folder f) = Ok gt_sorting /\
     prepare cfg recording gt_sorting = Ok prep /\
     sorting_dumps env (p_gt_sorting prep) = Ok gt_txt /\
     files st' !! (flattened_folder ++ [gt_file (folder_name f)]) = Some gt_txt).
Proof.
  intros E Hc Hsel Hs. apply texts_of_run in E
    as (cfg' & sel' & ws & Hc' & Hsel' & Hws & -> & ->).
  rewrite Hc in Hc'. injection Hc' as <-.
  rewrite Hsel in Hsel'. injection Hsel' as <-.
  apply loop_texts_app_inv in Hws as (ws1 & ws2 & H1 & H2 & ->).
  cbn [loop_texts] in H2.
  apply rbind_inv_ok in H2 as (w & Hw & H2).
  apply rbind_inv_ok in H2 as (ws3 & H3 & H2). injection H2 as <-.
  destruct (turn_texts_paired env cfg f w Hw Hs)
    as (recording & gt & prep & gt_txt & Hr & Hg & Hp & _ & Hdump & ->).
  split.
  - refine (proj2 (proj2 (apply_writes_written _ _
                             (folder_name f,
                              fst (json_dump env
                                     (make_job_dict cfg (name (parents1 f))
                                                    (name (parent f)) prep)),
                              gt_txt) _))).
    apply in_or_app. right. now left.
  - intros Hne. exists recording, gt, prep, gt_txt. repeat split; try assumption.
    apply apply_writes_last. intros w Hwin.
    pose proof (loop_texts_names env cfg post ws3 H3) as Hnames.
    assert (Hin : In (fst (fst w)) (map folder_name (List.filter (has_sorting env) post))).
    { rewrite <- Hnames. now apply (in_map (fun w => fst (fst w))). }
    apply in_map_iff in Hin as (g & <- & Hgin). apply List.filter_In in Hgin as [Hgin Hgs].
    now apply Hne.
Qed.

(** ** Output folders *)

Lemma process_folder_dirs env cfg f st :
  dirs (snd (process_folder env cfg f st)) = dirs st.
Proof.
  unfold process_folder, open_w_json_dump, dump_to_json, bind, lift, write_text, ret, raise.
  repeat case_match; simplify_eq; reflexivity.
Qed.

Lemma generate_dirs env cfg folders i st :
  dirs (snd (generate env cfg folders i st)) = dirs st.
Proof.
  revert i st. induction folders as [|f rest IH]; intros i st; [reflexivity|].
  cbn [generate]. unfold bind.
  pose proof (process_folder_dirs env cfg f st) as Hd.
  destruct (process_folder env cfg f st) as [[b|e] st1]; cbn [snd] in Hd.
  - now rewrite IH.
  - exact Hd.
Qed.

(** X5: once the configuration resolves, and provided no regular file sits
    at the path of an output folder, the recordings folder and the
    flattened folder (and their parent) are created whatever happens next:
    whether the run completes or stops in the subsampling step or in a
    turn of the loop, the directories it leaves are those it found plus
    these. *)
Theorem output_folders_created_once_configured env args cfg st :
  output_folders_free st ->
  resolve_config env args = Ok cfg ->
  dirs (snd (run env args st)) =
    {[flattened_folder; results_folder]} ∪
    ({[recordings_folder; results_folder]} ∪ dirs st).
Proof.
  intros _ Hc. unfold run.
  rewrite (bind_ok _ _ st cfg st) by (unfold lift; now rewrite Hc).
  rewrite (bind_ok (mkdir recordings_folder) _ st tt _ eq_refl).
  rewrite (bind_ok (mkdir flattened_folder) _ _ tt _ eq_refl).
  unfold bind at 1, lift.
  destruct (subsample env (MAX_RECORDINGS cfg) (find_zarr_folders env)) as [sel|e].
  - rewrite generate_dirs. reflexivity.
  - reflexivity.
Qed.

(** ** Failures in the loop *)



(** ** Runs without pairs, runs without a cap *)



Lemma subsample_uncapped env (max_recordings : pyval F) (zarr_folders : list path) :
  max_recordings = PyNone \/
  (exists m, max_recordings = PyInt m /\ Z.of_nat (length zarr_folders) <= m) ->
  subsample env max_recordings zarr_folders = Ok zarr_folders.
Proof.
  intros [-> | (m & -> & Hm)]; [reflexivity|].
  unfold subsample. cbn [subsample_guard rbind].
  now replace (m <? Z.of_nat (length zarr_folders)) with false
    by (symmetry; apply Z.ltb_ge; lia).
Qed.

(** X8: without a cap, or with a cap that is not below the number of
    discovered recording folders, nothing is drawn: the loop runs over the
    discovered folders in discovery order, and a completed run reports the
    number of discovered folders that have a sorting sibling. *)
Theorem uncapped_run_processes_every_pair env args cfg :
  resolve_config env args = Ok cfg ->
  MAX_RECORDINGS cfg = PyNone \/
  (exists m, MAX_RECORDINGS cfg = PyInt m /\
             Z.of_nat (length (find_zarr_folders env)) <= m) ->
  selected_folders env cfg = Ok (find_zarr_folders env) /\
  forall st (n : Z) st',
    run env args st = (Ok n, st') ->
    n = Z.of_nat (length (List.filter (has_sorting env) (find_zarr_folders env))).
Proof.
  intros Hc Hmax.
  assert (Hsel : selected_folders env cfg = Ok (find_zarr_folders env))
    by (apply subsample_uncapped; exact Hmax).
  split; [exact Hsel|].
  intros st n st' E. apply run_inv_ok in E as (cfg' & sel & Hc' & Hsel' & E).
  rewrite Hc in Hc'. injection Hc' as <-.
  rewrite Hsel in Hsel'. injection Hsel' as <-.
  apply generate_count in E. lia.
Qed.


(** ** The cap and the count *)

Lemma NoDup_map_flattened_job (names : list string) :
  NoDup names -> NoDup (map flattened_job names).
Proof.
  induction 1 as [|a l Ha _ IH]; cbn [map]; constructor; [|exact IH].
  intros Hin. apply list_elem_of_In, in_map_iff in Hin as (b & Hb & Hin).
  unfold flattened_job in Hb. apply app_inv_head in Hb.
  assert (Hab : job_file b = job_file a) by congruence.
  apply job_file_inj in Hab. subst b. apply Ha. now apply list_elem_of_In.
Qed.

(** C1, as the script has it: the subsampling step acts on the discovered
    [recording.zarr] folders, before the sibling check.  When the cap [m] is
    below their number, exactly [m] of them are selected (distinct ones when
    the discovered folders are distinct); a completed run then reports the
    number of selected folders that have a sorting sibling, which is at most
    [m], and is [m] when every selected folder has one.  In that case, when
    the derived names are distinct, [m] distinct job files exist in the
    recordings folder and [m] distinct job files in the flattened folder,
    and apart from the three files of each selected folder every path holds
    what it held before the run. *)
Theorem subsample_selects_cap_of_folders env args cfg (m : Z) :
  choice_without_replacement env ->
  resolve_config env args = Ok cfg ->
  MAX_RECORDINGS cfg = PyInt m ->
  0 <= m < Z.of_nat (length (find_zarr_folders env)) ->
  exists selected,
    selected_folders env cfg = Ok selected /\
    Z.of_nat (length selected) = m /\
    (forall f, f ∈ selected -> f ∈ find_zarr_folders env) /\
    (NoDup (find_zarr_folders env) -> NoDup selected) /\
    forall st n st',
      run env args st = (Ok n, st') ->
      n = Z.of_nat (length (List.filter (has_sorting env) selected)) /\
      n <= m /\
      ((forall f, f ∈ selected -> has_sorting env f = true) ->
       n = m /\
       (NoDup (map folder_name selected) ->
        NoDup (map recordings_job (map folder_name selected)) /\
        length (map recordings_job (map folder_name selected)) = Z.to_nat m /\
        (forall p, p ∈ map recordings_job (map folder_name selected) ->
                   is_Some (files st' !! p)) /\
        NoDup (map flattened_job (map folder_name selected)) /\
        length (map flattened_job (map folder_name selected)) = Z.to_nat m /\
        (forall p, p ∈ map flattened_job (map folder_name selected) ->
                   is_Some (files st' !! p)) /\
        (forall p, ~ In p (flat_map written_paths (map folder_name selected)) ->
                   files st' !! p = files st !! p))).
Proof.
  intros Hdraw Hc Hmax Hm.
  destruct (subsample_capped env m (find_zarr_folders env) Hdraw Hm)
    as (selected & Hsub & _ & Hlen & Hin & Hnd).
  assert (Hsel : selected_folders env cfg = Ok selected).
  { unfold selected_folders. now rewrite Hmax. }
  exists selected.
  split; [exact Hsel|]. split; [exact Hlen|]. split; [exact Hin|]. split; [exact Hnd|].
  intros st n st' E.
  destruct (texts_of_run env args st n st' E)
    as (cfg1 & sel1 & ws & Hc1 & Hsel1 & Hws & _ & Hst).
  rewrite Hc in Hc1. injection Hc1 as <-.
  rewrite Hsel in Hsel1. injection Hsel1 as <-.
  apply run_inv_ok in E as (cfg2 & sel2 & Hc2 & Hsel2 & E).
  rewrite Hc in Hc2. injection Hc2 as <-.
  rewrite Hsel in Hsel2. injection Hsel2 as <-.
  pose proof (generate_count _ _ _ _ _ _ _ E) as Hn. rewrite Z.add_0_l in Hn.
  split; [exact Hn|]. split.
  { pose proof (filter_length_le (has_sorting env) selected). lia. }
  intros Hall.
  assert (Hfilter : List.filter (has_sorting env) selected = selected)
    by (now apply filter_all).
  split; [rewrite Hfilter in Hn; lia|].
  intros Hnames.
  assert (Hcopies : forall f, In f selected -> copies_agree st' (folder_name f)).
  { intros f Hf.
    apply (generate_copies_agree env cfg selected 0 _ n st' f E Hf).
    apply Hall. now apply list_elem_of_In. }
  split; [now apply NoDup_map_job_paths|].
  split; [rewrite !length_map; lia|].
  split.
  { intros p Hp. apply list_elem_of_In, in_map_iff in Hp as (nm & <- & Hp).
    apply in_map_iff in Hp as (f & <- & Hf).
    destruct (Hcopies f Hf) as (txt & Hr & _). rewrite Hr. eauto. }
  split; [now apply NoDup_map_flattened_job|].
  split; [rewrite !length_map; lia|].
  split.
  { intros p Hp. apply list_elem_of_In, in_map_iff in Hp as (nm & <- & Hp).
    apply in_map_iff in Hp as (f & <- & Hf).
    destruct (Hcopies f Hf) as (txt & _ & Hr). rewrite Hr. eauto. }
  intros p Hp. rewrite Hst, apply_writes_other; [reflexivity|].
  intros w Hw Hpw. apply Hp. apply in_flat_map. exists (fst (fst w)).
  split; [|exact Hpw].
  rewrite <- Hfilter, <- (loop_texts_names env cfg selected ws Hws).
  now apply (in_map (fun w => fst (fst w))).
Qed.

(** C10: the count reported by a completed run is the number of folders of
    the loop that have a sorting sibling.  When two of them share session
    name and case name, their three file names coincide, both are counted,
    and the three files hold what the later one wrote (provided no still
    later folder writes that name again): both job files the text of its
    descriptor, the sorting file the dump of its sorting. *)
Theorem reported_count_counts_turns env args cfg selected st n st' :
  run env args st = (Ok n, st') ->
  resolve_config env args = Ok cfg ->
  selected_folders env cfg = Ok selected ->
  n = Z.of_nat (length (List.filter (has_sorting env) selected)) /\
  forall pre f1 mid f2 post,
    selected = pre ++ f1 :: mid ++ f2 :: post ->
    has_sorting env f1 = true -> has_sorting env f2 = true ->
    name (parents1 f1) = name (parents1 f2) ->
    name (parent f1) = name (parent f2) ->
    recordings_job (folder_name f1) = recordings_job (folder_name f2) /\
    flattened_job (folder_name f1) = flattened_job (folder_name f2) /\
    flattened_gt (folder_name f1) = flattened_gt (folder_name f2) /\
    2 <= n /\
    ((forall g, In g post -> has_sorting env g = true ->
                folder_name g <> folder_name f2) ->
     exists jd2 recording2 gt_sorting2 prep2 gt_txt2,
       job_dict_of env cfg f2 = Ok jd2 /\
       files st' !! recordings_job (folder_name f1) = Some (fst (json_dump env jd2)) /\
       files st' !! flattened_job (folder_name f1) = Some (fst (json_dump env jd2)) /\
       si_load_recording env f2 = Ok recording2 /\
       si_load_sorting env (sorting_zarr_folder f2) = Ok gt_sorting2 /\
       prepare cfg recording2 gt_sorting2 = Ok prep2 /\
       sorting_dumps env (p_gt_sorting prep2) = Ok gt_txt2 /\
       files st' !! flattened_gt (folder_name f1) = Some gt_txt2).
Proof.
  intros E Hc Hsel.
  destruct (texts_of_run env args st n st' E)
    as (cfg1 & sel1 & ws & Hc1 & Hsel1 & Hws & _ & Hst).
  rewrite Hc in Hc1. injection Hc1 as <-.
  rewrite Hsel in Hsel1. injection Hsel1 as <-.
  apply run_inv_ok in E as (cfg2 & sel2 & Hc2 & Hsel2 & E).
  rewrite Hc in Hc2. injection Hc2 as <-.
  rewrite Hsel in Hsel2. injection Hsel2 as <-.
  pose proof (generate_count _ _ _ _ _ _ _ E) as Hn. rewrite Z.add_0_l in Hn.
  split; [exact Hn|].
  intros pre f1 mid f2 post Hshape H1 H2 Hsess Hcase.
  assert (Hname : folder_name f1 = folder_name f2).
  { unfold folder_name. now rewrite Hsess, Hcase. }
  rewrite Hname.
  split; [reflexivity|]. split; [reflexivity|]. split; [reflexivity|].
  split.
  { rewrite Hn, Hshape.
    pose proof (filter_length_app_two (has_sorting env) pre mid post f1 f2 H1 H2). lia. }
  intros Hne.
  rewrite Hshape in Hws.
  replace (pre ++ f1 :: mid ++ f2 :: post) with ((pre ++ f1 :: mid) ++ f2 :: post) in Hws
    by (now rewrite <- app_assoc).
  apply loop_texts_app_inv in Hws as (ws1 & ws2 & _ & Hw2 & Hsplit).
  cbn [loop_texts] in Hw2.
  apply rbind_inv_ok in Hw2 as (w & Hw & Hw2).
  apply rbind_inv_ok in Hw2 as (ws3 & Hw3 & Hw2).
  destruct (turn_texts_paired env cfg f2 w Hw H2)
    as (recording & gt & prep & gt_txt & Hr & Hg & Hp & _ & Hdump & Hwrite).
  rewrite Hwrite in Hw2. injection Hw2 as Hws2.
  rewrite <- Hws2 in Hsplit.
  destruct (apply_writes_last ws1 ws3 (after_mkdirs st) (folder_name f2)
              (fst (json_dump env (make_job_dict cfg (name (parents1 f2))
                                                 (name (parent f2)) prep)))
              gt_txt) as (Hfr & Hff & Hfg).
  { intros w' Hw'.
    pose proof (loop_texts_names env cfg post ws3 Hw3) as Hnames.
    assert (Hin : In (fst (fst w'))
                     (map folder_name (List.filter (has_sorting env) post))).
    { rewrite <- Hnames. now apply (in_map (fun w => fst (fst w))). }
    apply in_map_iff in Hin as (g & <- & Hgin).
    apply List.filter_In in Hgin as [Hgin Hgs]. now apply Hne. }
  rewrite <- Hsplit, <- Hst in Hfr, Hff, Hfg.
  exists (make_job_dict cfg (name (parents1 f2)) (name (parent f2)) prep),
         recording, gt, prep, gt_txt.
  split.
  { unfold job_dict_of. rewrite Hr. cbn [rbind]. rewrite Hg. cbn [rbind].
    now rewrite Hp. }
  split; [exact Hfr|]. split; [exact Hff|].
  split; [exact Hr|]. split; [exact Hg|]. split; [exact Hp|].
  split; [exact Hdump | exact Hfg].
Qed.

End RunFacts.

Section ConfigFacts.
Context {F : Type} `{!FloatOps F}.

Implicit Types (env : Env F) (args : Args F) (cfg : Config F) (st : State).

(** ** Configuration *)

(** X10: whatever makes the resolution of the configuration fail (a cap or
    a duration that does not parse, a blob without duration, a blob that is
    no object, a params file without JSON) stops the run with that very
    error and leaves the results folder untouched: no folder is created. *)
Theorem configuration_errors_touch_nothing env args (e : exn) st :
  resolve_config env args = Raise e ->
  run env args st = (Raise e, st).
Proof.
  intros Hc. unfold run. apply bind_raise. unfold lift. now rewrite Hc.
Qed.

(** X11: the params value is tried as JSON text first; the file system is
    consulted only when that fails.  A value that decodes is used whatever
    file of that name exists; an existing file whose content does not decode
    is a [JSONDecodeError]; a decoded value that is not an object fails in
    [params.get] with an [AttributeError]. *)
Theorem params_blob_resolution env args (PARAMS : string) :
  arg_params args = Some PARAMS ->
  (forall v, json_loads env PARAMS = Some v -> load_params env PARAMS = Ok v) /\
  (json_loads env PARAMS = None -> is_file env PARAMS = true ->
   json_loads env (read_text env PARAMS) = None ->
   resolve_config env args = Raise JSONDecodeError) /\
  (forall v, load_params env PARAMS = Ok v ->
     (forall d, v <> PyDict d) ->
     resolve_config env args = Raise (AttributeError "object has no attribute 'get'")).
Proof.
  intros Hp. repeat split.
  - intros v Hv. unfold load_params. now rewrite Hv.
  - intros Hj Hf Hc. unfold resolve_config, load_params. now rewrite Hp, Hj, Hf, Hc.
  - intros v Hv Hnd. unfold resolve_config. rewrite Hp, Hv. cbn [rbind].
    destruct v; try reflexivity. exfalso. now apply (Hnd d).
Qed.

(** X12: on the command line the resolved configuration is well formed:
    the debug flag is a boolean, and the cap is [None] or an integer other
    than [-1]; so the comparison of the subsampling guard never fails. *)
Theorem command_line_config_shape env args cfg :
  arg_params args = None ->
  resolve_config env args = Ok cfg ->
  (exists b : bool, DEBUG cfg = PyBool b) /\
  (MAX_RECORDINGS cfg = PyNone \/
   exists m : Z, MAX_RECORDINGS cfg = PyInt m /\ m <> -1) /\
  forall zarr_folders : list path,
    exists b : bool, subsample_guard (MAX_RECORDINGS cfg) zarr_folders = Ok b.
Proof.
  intros Hp. unfold resolve_config. rewrite Hp. intros E.
  apply rbind_inv_ok in E as (dd & _ & E).
  apply rbind_inv_ok in E as (mx & Hmx & E). injection E as <-. cbn [DEBUG MAX_RECORDINGS].
  assert (Hshape : mx = PyNone \/ exists m : Z, mx = PyInt m /\ m <> -1).
  { destruct (if str_truthy (arg_static_max_recordings args)
              then arg_static_max_recordings args else arg_max_recordings args) as [s|].
    - apply rbind_inv_ok in Hmx as (m & _ & Hmx). injection Hmx as <-.
      destruct (m =? -1) eqn:Hm; [now left|]. right. exists m. split; [reflexivity|].
      now apply Z.eqb_neq.
    - injection Hmx as <-. now left. }
  split; [eexists; reflexivity|]. split; [exact Hshape|].
  intros l. destruct Hshape as [-> | (m & -> & _)]; eexists; reflexivity.
Qed.


(** ** Names and descriptor fields *)

Lemma name_parent_of_nested (pre : path) (s c r : string) :
  name (parents1 (pre ++ [s; c; r])) = s /\
  name (parent (pre ++ [s; c; r])) = c /\
  parent (pre ++ [s; c; r]) = pre ++ [s; c].
Proof.
  unfold parents1, parent, name.
  replace (pre ++ [s; c; r]) with ((pre ++ [s; c]) ++ [r])
    by (rewrite <- app_assoc; reflexivity).
  rewrite removelast_last.
  replace (pre ++ [s; c]) with ((pre ++ [s]) ++ [c])
    by (rewrite <- app_assoc; reflexivity).
  rewrite removelast_last, !last_last. auto.
Qed.

(** X14: only the two innermost directory names enter a job.  For a
    recording folder [.../s/c/recording.zarr] at any depth, the sibling
    looked for is [.../s/c/sorting.zarr], and the descriptor built for it
    has session name and input folder [s], recording name [s__c] and the
    configured debug flag; what lies above [s] is ignored.  (At depth one,
    [../data/c/recording.zarr], the session name is [data].) *)
Theorem descriptor_uses_innermost_names env cfg (pre : path) (s c r : string)
    (jd : JobDict F) :
  job_dict_of env cfg (pre ++ [s; c; r]) = Ok jd ->
  sorting_zarr_folder (pre ++ [s; c; r]) = pre ++ [s; c; "sorting.zarr"%string] /\
  jd_session_name jd = s /\
  jd_input_folder jd = s /\
  jd_recording_name jd = s +:+ "__" +:+ c /\
  jd_debug jd = DEBUG cfg.
Proof.
  destruct (name_parent_of_nested pre s c r) as (Hs & Hc & Hp).
  intros E. split.
  - unfold sorting_zarr_folder. rewrite Hp, <- app_assoc. reflexivity.
  - unfold job_dict_of in E.
    apply rbind_inv_ok in E as (rec & _ & E).
    apply rbind_inv_ok in E as (gt & _ & E).
    apply rbind_inv_ok in E as (prep & _ & E).
    injection E as <-. cbn. rewrite Hs, Hc. auto.
Qed.

(** ** What the debug branch does to a recording *)

(** X15: the recording put in the descriptor is the loaded one or a cut
    of it from frame 0: it has the sampling frequency and the channels of
    the loaded recording and no more samples; with debug on it is never
    empty, with debug off it is the loaded recording itself and the sorting
    is the loaded sorting. *)
Theorem prepared_recording_within_original cfg (recording : Recording F)
    (gt_sorting : Sorting) (prep : Prepared F) :
  prepare cfg recording gt_sorting = Ok prep ->
  sampling_frequency (p_recording prep) = sampling_frequency recording /\
  get_num_channels (p_recording prep) = get_num_channels recording /\
  get_num_samples (p_recording prep) <= get_num_samples recording /\
  (truthy (DEBUG cfg) = true -> 0 < get_num_samples (p_recording prep)) /\
  (truthy (DEBUG cfg) = false ->
   p_recording prep = recording /\ p_gt_sorting prep = gt_sorting).
Proof.
  intros E. destruct (truthy (DEBUG cfg)) eqn:Hd.
  - destruct (prepare_debug_inv cfg recording gt_sorting prep Hd E)
      as (k & _ & Hpos & _ & _ & Hrec & _).
    rewrite Hrec. cbn [sampling_frequency get_num_channels get_num_samples].
    repeat split; try lia; try discriminate.
  - unfold prepare in E. rewrite Hd in E. injection E as <-. cbn.
    repeat split; try lia; try discriminate.
Qed.

End ConfigFacts.

(** ** Discovery *)

Lemma node_nested_ind (P : node -> Prop) :
  P File ->
  (forall es, (forall d c, In (d, c) es -> P c) -> P (Dir es)) ->
  forall n, P n.
Proof.
  intros HF HD. fix IH 1. intros [|es]; [exact HF|].
  apply HD. induction es as [|[d c] es IHes]; intros d' c' Hin; [destruct Hin|].
  destruct Hin as [E|Hin].
  - injection E as _ <-. apply IH.
  - exact (IHes d' c' Hin).
Qed.

Lemma os_walk_Dir (r : path) (es : list (string * node))
    (t : path * list string * list string) :
  In t (os_walk r (Dir es)) <->
  t = (r, dirnames es, filenames es) \/
  exists d child, In (d, child) es /\ In t (os_walk (r ++ [d]) child).
Proof.
  cbn [os_walk]. split.
  - intros [<-|H]; [now left|]. right.
    induction es as [|[d c] es IH]; [destruct H|].
    apply in_app_or in H as [H|H].
    + exists d, c. split; [now left | exact H].
    + destruct (IH H) as (d' & c' & Hin & Ht). exists d', c'. split; [now right | exact Ht].
  - intros [->|(d & c & Hin & Ht)]; [now left|]. right.
    induction es as [|[d' c'] es IH]; [destruct Hin|].
    apply in_or_app. destruct Hin as [E|Hin].
    + injection E as -> ->. now left.
    + right. now apply IH.
Qed.

Lemma dirnames_In (es : list (string * node)) (d : string) :
  In d (dirnames es) <-> exists es', In (d, Dir es') es.
Proof.
  unfold dirnames. rewrite in_map_iff. split.
  - intros ([d' c] & <- & Hin). apply list_elem_of_In, list_elem_of_filter in Hin as [Hd Hin].
    cbn in Hd. destruct c as [|es']; [discriminate|].
    exists es'. now apply list_elem_of_In.
  - intros (es' & Hin). exists (d, Dir es'). split; [reflexivity|].
    apply list_elem_of_In, list_elem_of_filter. split; [reflexivity|].
    now apply list_elem_of_In.
Qed.

Lemma find_entry_In (es : list (string * node)) (d d' : string) (c : node) :
  List.find (fun e => String.eqb (fst e) d) es = Some (d', c) ->
  d' = d /\ In (d, c) es.
Proof.
  intros H. apply find_some in H as [Hin Heq]. cbn in Heq.
  apply String.eqb_eq in Heq. subst d'. auto.
Qed.

Lemma find_entry_unique (es : list (string * node)) (d : string) (c : node) :
  NoDup (map fst es) -> In (d, c) es ->
  List.find (fun e => String.eqb (fst e) d) es = Some (d, c).
Proof.
  induction es as [|[d' c'] es IH]; intros Hnd Hin; [destruct Hin|].
  cbn [map fst] in Hnd. apply NoDup_cons in Hnd as [Hnotin Hnd].
  cbn [List.find fst]. destruct Hin as [E|Hin].
  - injection E as -> ->. now rewrite String.eqb_refl.
  - destruct (String.eqb d' d) eqn:Heq.
    + apply String.eqb_eq in Heq. subst d'. exfalso. apply Hnotin.
      apply list_elem_of_In. apply (in_map fst) in Hin. exact Hin.
    + now apply IH.
Qed.

Lemma unique_names_child (es : list (string * node)) (d : string) (c : node) :
  unique_names (Dir es) -> In (d, c) es -> unique_names c.
Proof.
  cbn [unique_names]. intros [_ Hall] Hin.
  induction es as [|[d' c'] es IH]; [destruct Hin|].
  destruct Hall as [Hc Hall]. destruct Hin as [E|Hin].
  - now injection E as _ <-.
  - now apply IH.
Qed.

(** Every directory of the tree is visited. *)
Lemma os_walk_complete (rel : path) :
  forall (n : node) (r : path) (es : list (string * node)),
    lookup_node n rel = Some (Dir es) ->
    In (r ++ rel, dirnames es, filenames es) (os_walk r n).
Proof.
  induction rel as [|d rel IH]; intros n r es H.
  - cbn in H. injection H as ->. rewrite app_nil_r. apply os_walk_Dir. now left.
  - cbn [lookup_node] in H. destruct n as [|entries]; [discriminate|].
    destruct (List.find _ entries) as [[d' c]|] eqn:Hf; [|discriminate].
    apply find_entry_In in Hf as [-> Hin].
    apply os_walk_Dir. right. exists d, c. split; [exact Hin|].
    replace (r ++ d :: rel) with ((r ++ [d]) ++ rel) by (rewrite <- app_assoc; reflexivity).
    now apply IH.
Qed.

(** Every visit is to a directory of the tree. *)
Lemma os_walk_sound (n : node) :
  forall (r : path) (t : path * list string * list string),
    In t (os_walk r n) ->
    exists rel es,
      t = (r ++ rel, dirnames es, filenames es) /\
      (unique_names n -> lookup_node n rel = Some (Dir es)).
Proof.
  induction n as [|entries IH] using node_nested_ind; intros r t H; [destruct H|].
  apply os_walk_Dir in H as [->|(d & c & Hin & Ht)].
  - exists [], entries. rewrite app_nil_r. auto.
  - destruct (IH d c Hin _ _ Ht) as (rel & es & -> & Hl).
    exists (d :: rel), es. split.
    + rewrite <- app_assoc. reflexivity.
    + intros Hu. cbn [lookup_node].
      rewrite (find_entry_unique entries d c (proj1 Hu) Hin).
      apply Hl. exact (unique_names_child entries d c Hu Hin).
Qed.

Lemma lookup_node_snoc (rel : path) :
  forall (n : node) (d : string) (c : node),
    lookup_node n (rel ++ [d]) = Some c ->
    exists es, lookup_node n rel = Some (Dir es) /\ In (d, c) es.
Proof.
  induction rel as [|d0 rel IH]; intros n d c H.
  - cbn [app lookup_node] in H. destruct n as [|entries]; [discriminate|].
    destruct (List.find _ entries) as [[d' c']|] eqn:Hf; [|discriminate].
    injection H as ->. apply find_entry_In in Hf as [-> Hin].
    exists entries. auto.
  - cbn [app lookup_node] in H. destruct n as [|entries]; [discriminate|].
    cbn [lookup_node].
    destruct (List.find _ entries) as [[d' c']|] eqn:Hf; [|discriminate].
    now apply IH.
Qed.

Lemma lookup_node_snoc_unique (rel : path) :
  forall (n : node) (d : string) (es : list (string * node)) (c : node),
    unique_names n ->
    lookup_node n rel = Some (Dir es) -> In (d, c) es ->
    lookup_node n (rel ++ [d]) = Some c.
Proof.
  induction rel as [|d0 rel IH]; intros n d es c Hu H Hin.
  - cbn in H. injection H as ->. cbn [app lookup_node].
    now rewrite (find_entry_unique es d c (proj1 Hu) Hin).
  - cbn [lookup_node] in H. destruct n as [|entries]; [discriminate|].
    cbn [app lookup_node].
    destruct (List.find _ entries) as [[d' c']|] eqn:Hf; [|discriminate].
    apply find_entry_In in Hf as [-> Hin'].
    apply (IH c' d es c); auto. exact (unique_names_child entries d0 c' Hu Hin').
Qed.

Section DiscoveryFacts.
Context {F : Type} `{!FloatOps F}.

Implicit Types (env : Env F).

(** X17: discovery misses nothing: every directory named [recording.zarr]
    below the data folder, at whatever depth, is among the discovered
    folders. *)
Theorem discovery_finds_every_recording_folder env (p : path) :
  is_dir env p = true ->
  name p = "recording.zarr"%string ->
  In p (find_zarr_folders env).
Proof.
  unfold is_dir. case_bool_decide as Htake; [|discriminate].
  destruct (lookup_node (data_tree env) (drop 2 p)) as [[|x]|] eqn:Hl; try discriminate.
  intros _ Hname.
  assert (Hp : p = data_folder ++ drop 2 p) by (now rewrite <- Htake, take_drop).
  destruct (drop 2 p) as [|d0 rel0] eqn:Hrel.
  { rewrite Hp in Hname. discriminate Hname. }
  destruct (exists_last (l := d0 :: rel0)) as (rel & d & Hsplit); [discriminate|].
  rewrite Hsplit in Hl, Hp.
  assert (Hd : d = "recording.zarr"%string).
  { rewrite Hp, app_assoc in Hname. unfold name in Hname. now rewrite last_last in Hname. }
  subst d.
  apply lookup_node_snoc in Hl as (es & Hl & Hin).
  pose proof (os_walk_complete rel (data_tree env) data_folder es Hl) as Hw.
  unfold find_zarr_folders. apply in_flat_map.
  exists (data_folder ++ rel, dirnames es, filenames es). split; [exact Hw|].
  apply in_map_iff. exists "recording.zarr"%string. split.
  - rewrite Hp, app_assoc. reflexivity.
  - apply List.filter_In. split; [|reflexivity].
    apply dirnames_In. eauto.
Qed.

(** X18: discovery invents nothing: every discovered folder lies below
    the data folder and is named [recording.zarr]; when sibling entries of
    the tree have distinct names, it is a directory of the tree. *)
Theorem discovery_finds_only_recording_folders env (p : path) :
  In p (find_zarr_folders env) ->
  name p = "recording.zarr"%string /\
  take 2 p = data_folder /\
  (3 <= length p)%nat /\
  (unique_names (data_tree env) -> is_dir env p = true).
Proof.
  unfold find_zarr_folders. intros H.
  apply in_flat_map in H as ([[root ds] fs] & Hw & H).
  apply in_map_iff in H as (d & <- & Hd).
  apply List.filter_In in Hd as [Hd Heq]. apply String.eqb_eq in Heq. subst d.
  apply os_walk_sound in Hw as (rel & es & E & Hl). injection E as -> -> _.
  split; [|split; [|split]].
  - unfold name. apply last_last.
  - reflexivity.
  - rewrite !length_app. cbn. lia.
  - intros Hu.
    unfold is_dir.
    match goal with
    | |- context [bool_decide ?P] => replace (bool_decide P) with true by reflexivity
    end.
    match goal with
    | |- context [drop 2 ?l] => change (drop 2 l) with (rel ++ ["recording.zarr"%string])
    end.
    apply dirnames_In in Hd as (es' & Hin).
    now rewrite (lookup_node_snoc_unique rel (data_tree env) _ es (Dir es') Hu (Hl Hu) Hin).
Qed.

End DiscoveryFacts.

(** * The further properties on concrete inputs *)

(** ** The cap and the count *)

(** With debug off, every turn over the sample surroundings succeeds. *)
Lemma sample_env_loop_texts (tree : node) (draw : nat -> nat -> list nat)
    (folders : list path) :
  exists ws, loop_texts (sample_env tree draw) (cfg_capped false 3) folders = Ok ws.
Proof.
  induction folders as [|f rest (ws & IH)]; [exists []; reflexivity|].
  cbn [loop_texts]. rewrite IH. unfold turn_texts.
  destruct (has_sorting (sample_env tree draw) f); cbn [negb]; eexists; reflexivity.
Qed.

(** Each of the eleven listings holds eleven recording folders, ten of them
    with a sorting sibling.  Whatever three positions are drawn without
    replacement, the run with cap 3 over the listing whose unpaired folder
    sits at a drawn position completes and generates fewer than 3 jobs. *)
Lemma subsample_precedes_sibling_check :
  Forall (fun tree =>
            length (find_zarr_folders (env_of_tree tree)) = 11%nat /\
            length (paired_folders tree) = 10%nat) eleven_listings /\
  forall draw : nat -> nat -> list nat,
    choice_without_replacement (sample_env File draw) ->
    Exists (fun tree =>
              exists (n : Z) (st' : State),
                resolve_config (sample_env tree draw) args_cap3
                  = Ok (cfg_capped false 3) /\
                run (sample_env tree draw) args_cap3 empty_results = (Ok n, st') /\
                n < 3) eleven_listings.
Proof.
  split.
  - unfold eleven_listings. cbn [seq map].
    repeat (constructor; [split; vm_compute; reflexivity|]). constructor.
  - intros draw Hdraw.
    destruct (every_draw_can_miss_a_pair draw Hdraw) as (i & selected & Hi & Hsel & Hlt).
    apply List.Exists_exists. exists (tree_unpaired_at i). split.
    + unfold eleven_listings. apply in_map. apply in_seq. lia.
    + destruct (sample_env_loop_texts (tree_unpaired_at i) draw selected) as (ws & Hws).
      exists (Z.of_nat (length ws)), (apply_writes ws (after_mkdirs empty_results)).
      split; [reflexivity|]. split.
      * apply (run_of_texts _ args_cap3 (cfg_capped false 3) selected ws empty_results);
          [reflexivity | exact Hsel | exact Hws].
      * rewrite <- (length_map (fun w => fst (fst w)) ws),
          (loop_texts_names _ _ _ _ Hws), length_map.
        exact Hlt.
Qed.

(** Ten paired cases, cap 3: three folders selected, three jobs, a job file
    for each in the flattened folder. *)
Lemma subsample_selects_cap_of_folders_witness :
  exists selected,
    selected_folders env_ten (cfg_capped false 3) = Ok selected /\
    Z.of_nat (length selected) = 3 /\
    fst (run env_ten args_cap3 empty_results) = Ok 3 /\
    NoDup (map flattened_job (map folder_name selected)) /\
    forall p, p ∈ map flattened_job (map folder_name selected) ->
              is_Some (files (snd (run env_ten args_cap3 empty_results)) !! p).
Proof.
  destruct (subsample_selects_cap_of_folders env_ten args_cap3 (cfg_capped false 3) 3)
    as (selected & Hsel & Hlen & _ & _ & Hrun).
  - apply last_positions_without_replacement.
  - vm_compute. reflexivity.
  - reflexivity.
  - split; [lia | vm_compute; reflexivity].
  - exists selected. split; [exact Hsel|]. split; [exact Hlen|].
    split; [vm_compute; reflexivity|].
    assert (Hlist : selected = map case_folder ["c08"; "c09"; "c10"]%string).
    { assert (Hc : selected_folders env_ten (cfg_capped false 3) =
                   Ok (map case_folder ["c08"; "c09"; "c10"]%string))
        by (vm_compute; reflexivity).
      rewrite Hsel in Hc. now injection Hc. }
    destruct (Hrun empty_results 3 (snd (run env_ten args_cap3 empty_results)))
      as (_ & _ & Hpaired).
    + vm_compute. reflexivity.
    + destruct Hpaired as (_ & Hfiles).
      * intros f Hf. rewrite Hlist in Hf. apply list_elem_of_In in Hf. cbn in Hf.
        destruct Hf as [<-|[<-|[<-|[]]]]; reflexivity.
      * destruct Hfiles as (_ & _ & _ & Hnd & _ & Hflat & _).
        -- rewrite Hlist. apply (bool_decide_unpack _). vm_compute. exact I.
        -- split; [exact Hnd | exact Hflat].
Defined.

(** Two batches with the same session and case names: two jobs reported,
    one job file per folder, holding what the second batch wrote. *)
Lemma reported_count_counts_turns_witness :
  2 = Z.of_nat (length (List.filter (has_sorting env_same_names)
                                    (find_zarr_folders env_same_names))) /\
  fst (run env_same_names args_default empty_results) = Ok 2 /\
  files_in recordings_folder (snd (run env_same_names args_default empty_results)) = 1%nat /\
  files (snd (run env_same_names args_default empty_results))
    !! recordings_job "s__c" = Some "s__c from ../data/batch2/s/c/recording.zarr"%string /\
  exists gt_txt,
    sorting_dumps env_same_names
      (ZarrSorting [".."; "data"; "batch2"; "s"; "c"; "sorting.zarr"]%string) = Ok gt_txt /\
    files (snd (run env_same_names args_default empty_results))
      !! flattened_gt "s__c" = Some gt_txt.
Proof.
  assert (Hrun : run env_same_names args_default empty_results =
                 (Ok 2, snd (run env_same_names args_default empty_results)))
    by (vm_compute; reflexivity).
  assert (Hsel : selected_folders env_same_names cfg_default =
                 Ok (find_zarr_folders env_same_names)) by reflexivity.
  destruct (reported_count_counts_turns env_same_names args_default cfg_default
              (find_zarr_folders env_same_names) empty_results 2
              (snd (run env_same_names args_default empty_results))
              Hrun eq_refl Hsel) as (Hcount & Hpairs).
  split; [exact Hcount|].
  split; [vm_compute; reflexivity|].
  split; [vm_compute; reflexivity|].
  split; [vm_compute; reflexivity|].
  destruct (Hpairs [] [".."; "data"; "batch1"; "s"; "c"; "recording.zarr"]%string
                   [] [".."; "data"; "batch2"; "s"; "c"; "recording.zarr"]%string [])
    as (_ & _ & _ & _ & Hlast).
  - vm_compute. reflexivity.
  - reflexivity.
  - reflexivity.
  - reflexivity.
  - reflexivity.
  - destruct Hlast as (jd2 & recording2 & gt2 & prep2 & gt_txt2 &
                       _ & _ & _ & Hr & Hg & Hp & Hdump & Hfile).
    + intros g [].
    + exists gt_txt2. split; [|exact Hfile].
      vm_compute in Hg. injection Hg as <-.
      vm_compute in Hr. injection Hr as <-.
      vm_compute in Hp. injection Hp as <-.
      exact Hdump.
Defined.


Lemma rerun_leaves_results_unchanged_witness :
  run env_same_names args_default
      (snd (run env_same_names args_default empty_results)) =
    (Ok 2, snd (run env_same_names args_default empty_results)).
Proof.
  apply (rerun_leaves_results_unchanged env_same_names args_default empty_results).
  vm_compute. reflexivity.
Defined.

Lemma run_touches_only_written_paths_witness :
  files (snd (run env_two_cases args_default results_with_note))
    !! [".."; "results"; "notes.txt"]%string =
  files results_with_note !! [".."; "results"; "notes.txt"]%string.
Proof.
  apply (run_touches_only_written_paths env_two_cases args_default cfg_default
           (find_zarr_folders env_two_cases) results_with_note 1).
  - vm_compute. reflexivity.
  - reflexivity.
  - reflexivity.
  - intros f Hf _ Hin. vm_compute in Hf.
    destruct Hf as [<-|[<-|[]]]; vm_compute in Hin;
      destruct Hin as [H|[H|[H|[]]]]; discriminate H.
Defined.

Lemma ground_truth_written_witness :
  is_Some (files (snd (run env_two_cases args_debug empty_results))
             !! (flattened_folder ++ [gt_file (folder_name sample_folder)])).
Proof.
  refine (proj1 (ground_truth_written env_two_cases args_debug (cfg_debug 30)
                   [] sample_folder [[".."; "data"; "s1"; "c2"; "recording.zarr"]%string]
                   empty_results 1 _ _ _ _ _)).
  - vm_compute. reflexivity.
  - reflexivity.
  - vm_compute. reflexivity.
  - reflexivity.
Defined.

Lemma output_folders_created_once_configured_witness :
  output_folders_free empty_results /\
  dirs (snd (run env_unloadable args_default empty_results)) =
    {[flattened_folder; results_folder]} ∪
    ({[recordings_folder; results_folder]} ∪ dirs empty_results).
Proof.
  assert (Hfree : output_folders_free empty_results) by (repeat split).
  split; [exact Hfree|].
  apply (output_folders_created_once_configured env_unloadable args_default cfg_default
           empty_results Hfree).
  reflexivity.
Defined.



Lemma uncapped_run_processes_every_pair_witness :
  selected_folders env_ten (cfg_capped false 10) = Ok (find_zarr_folders env_ten).
Proof.
  refine (proj1 (uncapped_run_processes_every_pair env_ten
                   (cli_args false (PyInt 30) (Some "10"%string))
                   (cfg_capped false 10) _ _)).
  - vm_compute. reflexivity.
  - right. exists 10. split; [reflexivity | vm_compute; discriminate].
Defined.


Lemma configuration_errors_touch_nothing_witness :
  run env_ten (cli_args false (PyInt 30) (Some "three"%string)) results_with_note =
    (Raise (ValueError "invalid literal for int() with base 10"), results_with_note).
Proof.
  apply configuration_errors_touch_nothing. vm_compute. reflexivity.
Defined.

Lemma params_blob_resolution_witness :
  load_params env_bad_file "[1]" = Ok (PyList [PyInt 1]) /\
  resolve_config env_bad_file (params_args "params.json") = Raise JSONDecodeError /\
  resolve_config env_bad_file (params_args "[1]") =
    Raise (AttributeError "object has no attribute 'get'").
Proof.
  split; [|split].
  - apply (proj1 (params_blob_resolution env_bad_file (params_args "[1]") "[1]" eq_refl)).
    reflexivity.
  - apply (proj1 (proj2 (params_blob_resolution
                           env_bad_file (params_args "params.json") "params.json" eq_refl)));
      reflexivity.
  - apply (proj2 (proj2 (params_blob_resolution env_bad_file (params_args "[1]") "[1]" eq_refl))
             (PyList [PyInt 1])).
    + reflexivity.
    + intros d. discriminate.
Defined.

Lemma command_line_config_shape_witness :
  MAX_RECORDINGS (cfg_capped false 3) = PyNone \/
  exists m : Z, MAX_RECORDINGS (cfg_capped false 3) = PyInt m /\ m <> -1.
Proof.
  refine (proj1 (proj2 (command_line_config_shape env_ten args_cap3 (cfg_capped false 3) _ _))).
  - reflexivity.
  - vm_compute. reflexivity.
Defined.


Lemma descriptor_uses_innermost_names_witness :
  exists jd,
    job_dict_of env_same_names cfg_default
      ([".."; "data"; "batch1"]%string ++ ["s"; "c"; "recording.zarr"]%string) = Ok jd /\
    jd_recording_name jd = "s__c"%string.
Proof.
  eexists. split; [reflexivity|].
  refine (proj1 (proj2 (proj2 (proj2
            (descriptor_uses_innermost_names env_same_names cfg_default
               [".."; "data"; "batch1"]%string "s" "c" "recording.zarr" _ _))))).
  reflexivity.
Defined.

Lemma prepared_recording_within_original_witness :
  exists prep,
    prepare (cfg_debug 30) fast_recording sample_sorting = Ok prep /\
    get_num_samples (p_recording prep) <= get_num_samples fast_recording.
Proof.
  eexists. split; [reflexivity|].
  refine (proj1 (proj2 (proj2
            (prepared_recording_within_original (cfg_debug 30) fast_recording
               sample_sorting _ _)))).
  reflexivity.
Defined.

Lemma discovery_finds_every_recording_folder_witness :
  In sample_folder (find_zarr_folders env_two_cases).
Proof.
  apply discovery_finds_every_recording_folder; reflexivity.
Defined.

Lemma discovery_finds_only_recording_folders_witness :
  name (case_folder "c07") = "recording.zarr"%string /\
  is_dir env_ten (case_folder "c07") = true.
Proof.
  destruct (discovery_finds_only_recording_folders env_ten (case_folder "c07"))
    as (Hname & _ & _ & Hdir).
  - vm_compute. do 6 right. left. reflexivity.
  - split; [exact Hname|]. apply Hdir.
    cbn. repeat split; apply (bool_decide_unpack _); vm_compute; exact I.
Defined.
